(** * Redlining catalog (red_lines.py): a shallow embedding

    The program loads district records from a JSON file, samples one grid
    point inside each district polygon, looks the point's census tract up
    over HTTP and then attaches a median income to every district.

    Python values are modelled by [pyval]; an exception is the [Raise]
    branch of [result]; objects mutated in place are threaded explicitly
    (the districts list, the generator of [random], the network and the
    standard output).  What lives outside the repository (IEEE arithmetic,
    [int] on strings, matplotlib's [Path], numpy's grid, the random
    generator) is an interface, see [PyPrim] and [Extern]. *)

From Stdlib Require Import List String Ascii ZArith Bool Lia PeanoNat.
Import ListNotations.
Local Open Scope string_scope.
Local Open Scope list_scope.
Local Open Scope Z_scope.

Set Implicit Arguments.

(** ** Exceptions and the error monad *)

Inductive exn : Type :=
| FileNotFoundError
| JSONDecodeError
| KeyError
| TypeError
| IndexError
| ValueError
| OverflowError
| ConnectionError.

Inductive result (A : Type) : Type :=
| Ok (a : A)
| Raise (e : exn).

Arguments Ok {A} a.
Arguments Raise {A} e.

Definition bind {A B : Type} (m : result A) (k : A -> result B) : result B :=
  match m with
  | Ok a => k a
  | Raise e => Raise e
  end.

Declare Scope py_scope.
Delimit Scope py_scope with py.
Notation "x <- m ;; k" := (bind m (fun x => k))
  (at level 100, m at next level, right associativity) : py_scope.
Local Open Scope py_scope.

Definition raised {A : Type} (r : result A) : bool :=
  match r with
  | Ok _ => false
  | Raise _ => true
  end.

(** ** Python values *)

(** Primitives of the interpreter.  [flt] is the type of floating point
    numbers; nothing below computes with them, the operations are the ones
    the dynamic semantics of [+], [int], [==] and [bool] reach when a float
    turns up.  [int_of_str] is [int] on a string, [None] for a [ValueError]. *)
Class PyPrim : Type := {
  flt : Type;
  float_add : flt -> flt -> flt;
  float_of_int : Z -> result flt;
  int_of_float : flt -> result Z;
  float_eqb : flt -> flt -> bool;
  float_eq_int : flt -> Z -> bool;
  int_of_str : string -> option Z
}.

(** The values [json.load] and [response.json()] produce, which are also the
    values the fields of a district hold.  A [PDict] lists its items in
    insertion order; all its keys are strings, as in a parsed JSON object.
    A [PStr] holds one [ascii] per character of the Python string: indexing,
    slicing and [len] agree with Python's on ASCII text (grades, ids, FIPS
    codes, decimal numerals), and count bytes rather than code points on
    other text. *)
#[warnings="-register-all"]
Inductive pyval `{PyPrim} : Type :=
| PNone
| PBool (b : bool)
| PInt (z : Z)
| PFloat (f : flt)
| PStr (s : string)
| PList (l : list pyval)
| PDict (items : list (string * pyval)).

Section Values.
Context `{PyPrim}.

Fixpoint assoc {V : Type} (k : string) (items : list (string * V)) : option V :=
  match items with
  | [] => None
  | (k', v) :: rest => if String.eqb k k' then Some v else assoc k rest
  end.

(** [v[k]] for a string literal [k]. *)
Definition getkey (v : pyval) (k : string) : result pyval :=
  match v with
  | PDict items =>
      match assoc k items with
      | Some x => Ok x
      | None => Raise KeyError
      end
  | _ => Raise TypeError
  end.

Definition char_at (i : nat) (s : string) : option string :=
  match String.get i s with
  | Some c => Some (String c EmptyString)
  | None => None
  end.

(** [v[i]] for a literal index [i >= 0]. *)
Definition getitem (v : pyval) (i : nat) : result pyval :=
  match v with
  | PList l =>
      match nth_error l i with
      | Some x => Ok x
      | None => Raise IndexError
      end
  | PStr s =>
      match char_at i s with
      | Some c => Ok (PStr c)
      | None => Raise IndexError
      end
  | PDict _ => Raise KeyError
  | _ => Raise TypeError
  end.

(** [v[lo:hi]], bounds clamped as slicing does; a dict, like a number,
    cannot be sliced. *)
Definition getslice (v : pyval) (lo hi : nat) : result pyval :=
  match v with
  | PList l => Ok (PList (firstn (hi - lo) (skipn lo l)))
  | PStr s => Ok (PStr (String.substring lo (hi - lo) s))
  | _ => Raise TypeError
  end.

Fixpoint string_drop (n : nat) (s : string) : string :=
  match n, s with
  | O, _ => s
  | S n', EmptyString => EmptyString
  | S n', String _ s' => string_drop n' s'
  end.

(** [v[lo:]]. *)
Definition getslice_from (v : pyval) (lo : nat) : result pyval :=
  match v with
  | PList l => Ok (PList (skipn lo l))
  | PStr s => Ok (PStr (string_drop lo s))
  | _ => Raise TypeError
  end.

Fixpoint chars (s : string) : list pyval :=
  match s with
  | EmptyString => []
  | String c s' => PStr (String c EmptyString) :: chars s'
  end.

(** The items a [for] loop over [v] visits. *)
Definition iterate (v : pyval) : result (list pyval) :=
  match v with
  | PList l => Ok l
  | PStr s => Ok (chars s)
  | PDict items => Ok (map (fun kv => PStr (fst kv)) items)
  | _ => Raise TypeError
  end.

Definition py_len (v : pyval) : result nat :=
  match v with
  | PList l => Ok (List.length l)
  | PStr s => Ok (String.length s)
  | PDict items => Ok (List.length items)
  | _ => Raise TypeError
  end.

(** [v == s] for a string literal [s]. *)
Definition eq_str (v : pyval) (s : string) : bool :=
  match v with
  | PStr s' => String.eqb s' s
  | _ => false
  end.

Definition is_substring (s t : string) : bool :=
  match String.index 0 s t with
  | Some _ => true
  | None => false
  end.

(** [s in v] for a string literal [s]. *)
Definition contains_str (s : string) (v : pyval) : result bool :=
  match v with
  | PDict items =>
      Ok (match assoc s items with Some _ => true | None => false end)
  | PList l => Ok (existsb (fun x => eq_str x s) l)
  | PStr t => Ok (is_substring s t)
  | _ => Raise TypeError
  end.

Definition is_None (v : pyval) : bool :=
  match v with
  | PNone => true
  | _ => false
  end.

Definition Z_of_bool (b : bool) : Z := if b then 1 else 0.

(** Truth value of [v], as [if v] tests it. *)
Definition truthy (v : pyval) : bool :=
  match v with
  | PNone => false
  | PBool b => b
  | PInt z => negb (Z.eqb z 0)
  | PFloat f => negb (float_eq_int f 0)
  | PStr s => negb (String.eqb s "")
  | PList l => match l with [] => false | _ => true end
  | PDict items => match items with [] => false | _ => true end
  end.

Definition hashable (v : pyval) : bool :=
  match v with
  | PList _ | PDict _ => false
  | _ => true
  end.

(** Equality of two hashable values, as a dict compares its keys. *)
Definition key_eqb (a b : pyval) : bool :=
  match a, b with
  | PNone, PNone => true
  | PStr s, PStr t => String.eqb s t
  | PBool x, PBool y => Z.eqb (Z_of_bool x) (Z_of_bool y)
  | PBool x, PInt z | PInt z, PBool x => Z.eqb (Z_of_bool x) z
  | PInt x, PInt y => Z.eqb x y
  | PFloat f, PFloat g => float_eqb f g
  | PFloat f, PInt z | PInt z, PFloat f => float_eq_int f z
  | PFloat f, PBool x | PBool x, PFloat f => float_eq_int f (Z_of_bool x)
  | _, _ => false
  end.

(** [d.get(key, default)] on a dict with string keys. *)
Definition dict_get (d : list (string * string)) (key : pyval) (default : string)
  : result pyval :=
  match key with
  | PStr k =>
      match assoc k d with
      | Some v => Ok (PStr v)
      | None => Ok (PStr default)
      end
  | PList _ | PDict _ => Raise TypeError
  | _ => Ok (PStr default)
  end.

End Values.

(** ** DetroitDistrict *)

Record DetroitDistrict `{PyPrim} : Type := {
  coordinates : pyval;
  holcGrade : pyval;
  id : pyval;
  description : pyval;
  randomLat : pyval;
  randomLong : pyval;
  medIncome : pyval;
  censusTract : pyval;
  holcColor : pyval
}.

Section District.
Context `{PyPrim}.

Definition color_map : list (string * string) :=
  [("A", "darkgreen"); ("B", "cornflowerblue"); ("C", "gold"); ("D", "maroon")].

(** [DetroitDistrict.__init__]; an argument left out is passed as [PNone]. *)
Definition DetroitDistrict_init
  (coordinates holcGrade id description : pyval)
  (holcColor randomLat randomLong medIncome censusTract : pyval)
  : result DetroitDistrict :=
  color <- (if truthy holcColor then Ok holcColor
            else dict_get color_map holcGrade "grey") ;;
  Ok {| coordinates := coordinates;
        holcGrade := holcGrade;
        id := id;
        description := description;
        randomLat := randomLat;
        randomLong := randomLong;
        medIncome := medIncome;
        censusTract := censusTract;
        holcColor := color |}.

(** ** RedLines.createDistricts *)

(** A file is modelled by what [json.load] makes of its content. *)
Inductive file : Type :=
| NotJSON
| Doc (data : pyval).

(** [None] for a name that [open] does not find. *)
Definition filesystem : Type := string -> option file.

(** One turn of the loop of line 132: the record made from a feature,
    the subscripts taken in the order the source evaluates them. *)
Definition make_district (district_data : pyval) : result DetroitDistrict :=
  properties <- getkey district_data "properties" ;;
  geometry <- getkey district_data "geometry" ;;
  rings <- getkey geometry "coordinates" ;;
  coordinates <- getitem rings 0 ;;
  a_coordinates <- getitem coordinates 0 ;;
  a_holcGrade <- getkey properties "holc_grade" ;;
  a_id <- getkey properties "holc_id" ;;
  area <- getkey properties "area_description_data" ;;
  a_description <- getkey area "8" ;;
  DetroitDistrict_init a_coordinates a_holcGrade a_id a_description
    PNone PNone PNone PNone PNone.

(** [for district_data in ...: self.districts.append(...)], stopping at the
    first exception with the list as it is then. *)
Fixpoint append_districts (features : list pyval) (districts : list DetroitDistrict)
  : list DetroitDistrict * result unit :=
  match features with
  | [] => (districts, Ok tt)
  | district_data :: rest =>
      match make_district district_data with
      | Ok district => append_districts rest (districts ++ [district])
      | Raise e => (districts, Raise e)
      end
  end.

(** What the loop of line 132 iterates over. *)
Definition features_of (data : pyval) : result (list pyval) :=
  features <- getkey data "features" ;;
  iterate features.

Definition createDistricts (fs : filesystem) (fileName : string)
  (districts : list DetroitDistrict) : list DetroitDistrict * result unit :=
  match fs fileName with
  | None => (districts, Raise FileNotFoundError)
  | Some NotJSON => (districts, Raise JSONDecodeError)
  | Some (Doc data) =>
      match features_of data with
      | Ok features => append_districts features districts
      | Raise e => (districts, Raise e)
      end
  end.

End District.

(** ** What the libraries provide *)

(** [Path] is matplotlib's constructor on a vertex list (it raises on a
    list it cannot turn into an N x 2 array) and [contains_point] the test
    [contains_points] applies to each row it is given.  [points] is the
    grid the two [np.arange] calls span, one (x, y) row per point.  [rng]
    is the state of the generator behind [random], [seed] is [random.seed]
    and [randbelow] the draw [random.choice] makes.  [draw] is what
    matplotlib makes of the polygons, given as (vertices, face colour). *)
Class Extern `{PyPrim} : Type := {
  path : Type;
  Path : pyval -> result path;
  contains_point : path -> flt * flt -> bool;
  points : list (flt * flt);
  rng : Type;
  seed : Z -> rng;
  randbelow : rng -> nat -> nat * rng;
  draw : list (pyval * pyval) -> result unit
}.

(** ** The outside world of the two HTTP calls *)

Record Response `{PyPrim} : Type := {
  status_code : Z;
  json : result pyval;
  text : string
}.

Record Request `{PyPrim} : Type := {
  url : string;
  params : list (string * pyval)
}.

Inductive reply `{PyPrim} : Type :=
| NoAnswer
| Answer (response : Response).

(** The replies still to come, in order, and the requests made so far.  A
    request that meets [NoAnswer], or no reply at all, raises. *)
Record World `{PyPrim} : Type := {
  script : list reply;
  sent : list Request
}.

Inductive event `{PyPrim} : Type :=
| PrintPoint (district : DetroitDistrict) (point : flt * flt)
| PrintIncomeData
| PrintUpdated (id medIncome : pyval)
| PrintNoData (id : pyval)
| PrintFailed (status_code : Z) (text : string)
| PrintComment.

Section Catalog.
Context `{PyPrim} `{!Extern}.

(** A [for district in self.districts] loop whose body works on the
    district and on a piece of state [S]; at the first exception the loop
    stops, with the districts before it already updated in place. *)
Fixpoint for_districts {S : Type}
  (body : S -> DetroitDistrict -> S * result DetroitDistrict)
  (s : S) (districts : list DetroitDistrict)
  : list DetroitDistrict * S * result unit :=
  match districts with
  | [] => ([], s, Ok tt)
  | district :: rest =>
      match body s district with
      | (s', Ok district') =>
          let '(rest', s'', r) := for_districts body s' rest in
          (district' :: rest', s'', r)
      | (s', Raise e) => (district :: rest, s', Raise e)
      end
  end.

(** ** RedLines.generateRandPoint *)

Definition is_pair (coord : pyval) : bool :=
  match coord with
  | PList xy => Nat.eqb (List.length xy) 2
  | _ => false
  end.

(** The test of line 183. *)
Definition coordinates_ok (coordinates : pyval) : bool :=
  match coordinates with
  | PList l => forallb is_pair l
  | _ => false
  end.

(** [xs[bs]] for a boolean mask [bs]. *)
Definition masked {A : Type} (xs : list A) (bs : list bool) : list A :=
  map fst (filter snd (combine xs bs)).

(** [random.choice(seq)]. *)
Definition choice {A : Type} (g : rng) (seq : list A) : rng * result A :=
  match seq with
  | [] => (g, Raise IndexError)
  | _ =>
      let (i, g') := randbelow g (List.length seq) in
      match nth_error seq i with
      | Some x => (g', Ok x)
      | None => (g', Raise IndexError)
      end
  end.

Definition set_point (district : DetroitDistrict) (point : flt * flt)
  : DetroitDistrict :=
  {| coordinates := coordinates district;
     holcGrade := holcGrade district;
     id := id district;
     description := description district;
     randomLat := PFloat (snd point);
     randomLong := PFloat (fst point);
     medIncome := medIncome district;
     censusTract := censusTract district;
     holcColor := holcColor district |}.

(** The points of the grid inside the polygon of a district. *)
Definition valid_points (polygon_path : path) : list (flt * flt) :=
  let inside_grid := map (contains_point polygon_path) points in
  masked points inside_grid.

(** The body of the loop; the state is the generator and what was printed. *)
Definition sample (s : rng * list event) (district : DetroitDistrict)
  : (rng * list event) * result DetroitDistrict :=
  if coordinates_ok (coordinates district) then
    match Path (coordinates district) with
    | Raise e => (s, Raise e)
    | Ok polygon_path =>
        let valid := valid_points polygon_path in
        if Nat.ltb 0 (2 * List.length valid) then
          match choice (fst s) valid with
          | (g', Ok point) =>
              let district' := set_point district point in
              ((g', snd s ++ [PrintPoint district' point]), Ok district')
          | (g', Raise e) => ((g', snd s), Raise e)
          end
        else (s, Ok district)
    end
  else (s, Ok district).

Definition generateRandPoint (g : rng) (out : list event)
  (districts : list DetroitDistrict)
  : list DetroitDistrict * (rng * list event) * result unit :=
  for_districts sample (g, out) districts.

(** ** RedLines.fetchCensus *)

Definition requests_get (w : World) (url : string) (params : list (string * pyval))
  : World * result Response :=
  let w' := {| script := tl (script w);
               sent := sent w ++ [{| url := url; params := params |}] |} in
  match script w with
  | Answer response :: _ => (w', Ok response)
  | _ => (w', Raise ConnectionError)
  end.

Definition set_censusTract (district : DetroitDistrict) (tract : pyval)
  : DetroitDistrict :=
  {| coordinates := coordinates district;
     holcGrade := holcGrade district;
     id := id district;
     description := description district;
     randomLat := randomLat district;
     randomLong := randomLong district;
     medIncome := medIncome district;
     censusTract := tract;
     holcColor := holcColor district |}.

Definition census_url : string := "https://geo.fcc.gov/api/census/area".

Definition census_params (district : DetroitDistrict) : list (string * pyval) :=
  [("lat", randomLat district); ("lon", randomLong district);
   ("censusYear", PStr "2010"); ("format", PStr "json")].

(** Lines 233 to 236, on the response to the one request. *)
Definition read_tract (response : Response) (district : DetroitDistrict)
  : result DetroitDistrict :=
  if Z.eqb (status_code response) 200 then
    data <- json response ;;
    has_results <- contains_str "results" data ;;
    if has_results then
      results <- getkey data "results" ;;
      n <- py_len results ;;
      if Nat.ltb 0 n then
        results <- getkey data "results" ;;
        first <- getitem results 0 ;;
        block_fips <- getkey first "block_fips" ;;
        tract <- getslice block_fips 2 11 ;;
        Ok (set_censusTract district tract)
      else Ok district
    else Ok district
  else Ok district.

(** The body of the loop; the state is the network. *)
Definition fetch_tract (w : World) (district : DetroitDistrict)
  : World * result DetroitDistrict :=
  if negb (is_None (randomLat district)) && negb (is_None (randomLong district))
  then
    match requests_get w census_url (census_params district) with
    | (w', Ok response) => (w', read_tract response district)
    | (w', Raise e) => (w', Raise e)
    end
  else (w, Ok district).

Definition fetchCensus (w : World) (districts : list DetroitDistrict)
  : list DetroitDistrict * World * result unit :=
  for_districts fetch_tract w districts.

(** ** RedLines.fetchIncome *)

Definition as_int (v : pyval) : option Z :=
  match v with
  | PInt z => Some z
  | PBool b => Some (Z_of_bool b)
  | _ => None
  end.

(** [a + b]. *)
Definition py_add (a b : pyval) : result pyval :=
  match a, b with
  | PStr s, PStr t => Ok (PStr (s ++ t)%string)
  | PList l, PList m => Ok (PList (l ++ m))
  | PFloat f, PFloat g => Ok (PFloat (float_add f g))
  | PFloat f, _ =>
      match as_int b with
      | Some z => g <- float_of_int z ;; Ok (PFloat (float_add f g))
      | None => Raise TypeError
      end
  | _, PFloat g =>
      match as_int a with
      | Some z => f <- float_of_int z ;; Ok (PFloat (float_add f g))
      | None => Raise TypeError
      end
  | _, _ =>
      match as_int a, as_int b with
      | Some x, Some y => Ok (PInt (x + y))
      | _, _ => Raise TypeError
      end
  end.

(** [int(v)]. *)
Definition py_int (v : pyval) : result Z :=
  match v with
  | PStr s =>
      match int_of_str s with
      | Some z => Ok z
      | None => Raise ValueError
      end
  | PInt z => Ok z
  | PBool b => Ok (Z_of_bool b)
  | PFloat f => int_of_float f
  | _ => Raise TypeError
  end.

Definition no_data : string := "-666666666".

(** [d[key] = value] on a dict with values in [Z]: an equal key keeps its
    place and takes the new value, a new key goes last. *)
Fixpoint dict_set (key : pyval) (value : Z) (d : list (pyval * Z))
  : list (pyval * Z) :=
  match d with
  | [] => [(key, value)]
  | (k, v) :: rest =>
      if key_eqb key k then (k, value) :: rest
      else (k, v) :: dict_set key value rest
  end.

Fixpoint dict_find (key : pyval) (d : list (pyval * Z)) : option Z :=
  match d with
  | [] => None
  | (k, v) :: rest => if key_eqb key k then Some v else dict_find key rest
  end.

(** Key and value of one row, in the order the comprehension evaluates
    them; the key is hashed when the pair is stored. *)
Definition income_entry (item : pyval) : result (pyval * Z) :=
  county <- getitem item 2 ;;
  tract <- getitem item 3 ;;
  key <- py_add county tract ;;
  estimate <- getitem item 0 ;;
  value <- (if negb (eq_str estimate no_data)
            then (estimate <- getitem item 0 ;; py_int estimate)
            else Ok 0) ;;
  if hashable key then Ok (key, value) else Raise TypeError.

Fixpoint income_dict (items : list pyval) (income_data : list (pyval * Z))
  : result (list (pyval * Z)) :=
  match items with
  | [] => Ok income_data
  | item :: rest =>
      kv <- income_entry item ;;
      income_dict rest (dict_set (fst kv) (snd kv) income_data)
  end.

Definition set_medIncome (district : DetroitDistrict) (income : pyval)
  : DetroitDistrict :=
  {| coordinates := coordinates district;
     holcGrade := holcGrade district;
     id := id district;
     description := description district;
     randomLat := randomLat district;
     randomLong := randomLong district;
     medIncome := income;
     censusTract := censusTract district;
     holcColor := holcColor district |}.

(** The body of the loop of line 269; the state is what was printed. *)
Definition assign_income (income_data : list (pyval * Z)) (out : list event)
  (district : DetroitDistrict) : list event * result DetroitDistrict :=
  if hashable (censusTract district) then
    match dict_find (censusTract district) income_data with
    | Some income =>
        (out ++ [PrintUpdated (id district) (PInt income)],
         Ok (set_medIncome district (PInt income)))
    | None =>
        (out ++ [PrintNoData (id district)],
         Ok (set_medIncome district (PInt 0)))
    end
  else (out, Raise TypeError).

Definition income_url : string := "https://api.census.gov/data/2018/acs/acs5".

Definition income_params : list (string * pyval) :=
  [("get", PStr "B19013_001E"); ("for", PStr "tract:*");
   ("in", PStr "state:26");
   ("key", PStr "c8f5410605a867435f057525b931e640a5bce297")].

(** The comprehension of line 267 on the decoded body. *)
Definition read_income (response : Response) : result (list (pyval * Z)) :=
  data <- json response ;;
  rows <- getslice_from data 1 ;;
  items <- iterate rows ;;
  income_dict items [].

Definition fetchIncome (w : World) (out : list event)
  (districts : list DetroitDistrict)
  : list DetroitDistrict * World * list event * result unit :=
  match requests_get w income_url income_params with
  | (w', Raise e) => (districts, w', out, Raise e)
  | (w', Ok response) =>
      if Z.eqb (status_code response) 200 then
        match read_income response with
        | Raise e => (districts, w', out, Raise e)
        | Ok income_data =>
            let '(districts', out', r) :=
              for_districts (assign_income income_data)
                (out ++ [PrintIncomeData]) districts in
            (districts', w', out', r)
        end
      else
        (districts, w',
         out ++ [PrintFailed (status_code response) (text response)], Ok tt)
  end.

(** ** The program as a whole *)

(** What the methods of a [RedLines] object read and change: its list of
    districts, the generator of [random], the network, the standard output
    and the files. *)
Record State : Type := {
  districts : list DetroitDistrict;
  random : rng;
  network : World;
  stdout : list event;
  files : filesystem
}.

Inductive method : Type :=
| Call_createDistricts (fileName : string)
| Call_plotDistricts
| Call_generateRandPoint
| Call_fetchCensus
| Call_fetchIncome
| Call_cacheData (fileName : string)
| Call_loadCache (fileName : string)
| Call_calcIncomeStats
| Call_findCommonWords
| Call_calcRank
| Call_calcPopu
| Call_comment.

Definition graph_file : string := "redlining/redlines_graph.png".

Definition write_file (fs : filesystem) (name : string) (f : file) : filesystem :=
  fun n => if String.eqb n name then Some f else fs n.

(** [plotDistricts] changes no district; when matplotlib draws and saves
    without an exception the image file exists, and an image is not JSON. *)
Definition plotDistricts (st : State) : State * result unit :=
  match draw (map (fun d => (coordinates d, holcColor d)) (districts st)) with
  | Ok _ =>
      ({| districts := districts st; random := random st;
          network := network st; stdout := stdout st;
          files := write_file (files st) graph_file NotJSON |}, Ok tt)
  | Raise e => (st, Raise e)
  end.

Definition call (m : method) (st : State) : State * result unit :=
  match m with
  | Call_createDistricts fileName =>
      let '(ds, r) := createDistricts (files st) fileName (districts st) in
      ({| districts := ds; random := random st; network := network st;
          stdout := stdout st; files := files st |}, r)
  | Call_plotDistricts => plotDistricts st
  | Call_generateRandPoint =>
      let '(ds, (g, out), r) :=
        generateRandPoint (random st) (stdout st) (districts st) in
      ({| districts := ds; random := g; network := network st;
          stdout := out; files := files st |}, r)
  | Call_fetchCensus =>
      let '(ds, w, r) := fetchCensus (network st) (districts st) in
      ({| districts := ds; random := random st; network := w;
          stdout := stdout st; files := files st |}, r)
  | Call_fetchIncome =>
      let '(ds, w, out, r) :=
        fetchIncome (network st) (stdout st) (districts st) in
      ({| districts := ds; random := random st; network := w;
          stdout := out; files := files st |}, r)
  | Call_comment =>
      ({| districts := districts st; random := random st;
          network := network st; stdout := stdout st ++ [PrintComment];
          files := files st |}, Ok tt)
  | Call_cacheData _ | Call_loadCache _ | Call_calcIncomeStats
  | Call_findCommonWords | Call_calcRank | Call_calcPopu => (st, Ok tt)
  end.

(** A script of calls, as [main] is one; the first exception ends it. *)
Fixpoint run (ms : list method) (st : State) : State * result unit :=
  match ms with
  | [] => (st, Ok tt)
  | m :: rest =>
      match call m st with
      | (st', Ok _) => run rest st'
      | (st', Raise e) => (st', Raise e)
      end
  end.

(** The state after [random.seed(17)] and [RedLines()]. *)
Definition start (w : World) (fs : filesystem) : State :=
  {| districts := []; random := seed 17; network := w; stdout := [];
     files := fs |}.

End Catalog.

(** ** Vocabulary of the properties *)

Section Vocabulary.
Context `{PyPrim} `{!Extern}.

(** [v] is an object without the key [k]. *)
Definition lacks_key (v : pyval) (k : string) : bool :=
  match v with
  | PDict items =>
      match assoc k items with
      | Some _ => false
      | None => true
      end
  | _ => false
  end.

(** The properties of a feature miss the grade, the identifier, the
    description data or its entry 8. *)
Definition lacks_required_key (feature : pyval) : bool :=
  match getkey feature "properties" with
  | Ok properties =>
      lacks_key properties "holc_grade"
      || lacks_key properties "holc_id"
      || lacks_key properties "area_description_data"
      || match getkey properties "area_description_data" with
         | Ok area => lacks_key area "8"
         | Raise _ => false
         end
  | Raise _ => false
  end.

(** Every field the loader fills is the value the feature holds for it. *)
Definition built_from (feature : pyval) (d : DetroitDistrict) : Prop :=
  exists properties geometry rings ring area,
    getkey feature "properties" = Ok properties /\
    getkey feature "geometry" = Ok geometry /\
    getkey geometry "coordinates" = Ok rings /\
    getitem rings 0 = Ok ring /\
    getitem ring 0 = Ok (coordinates d) /\
    getkey properties "holc_grade" = Ok (holcGrade d) /\
    getkey properties "holc_id" = Ok (id d) /\
    getkey properties "area_description_data" = Ok area /\
    getkey area "8" = Ok (description d).

(** The fields [generateRandPoint] does not assign. *)
Definition same_but_point (d d' : DetroitDistrict) : Prop :=
  coordinates d' = coordinates d /\
  holcGrade d' = holcGrade d /\
  holcColor d' = holcColor d /\
  id d' = id d /\
  description d' = description d /\
  medIncome d' = medIncome d /\
  censusTract d' = censusTract d.

(** The sampled point of a district, as (randomLat, randomLong). *)
Definition sampled (d : DetroitDistrict) : pyval * pyval :=
  (randomLat d, randomLong d).

(** What the sampler reads and writes in a district. *)
Definition sampler_view (d : DetroitDistrict) : pyval * (pyval * pyval) :=
  (coordinates d, sampled d).

(** A district has no sampled point, or its point is a point of the grid
    that passes the test of the polygon of the district. *)
Definition point_inside (d : DetroitDistrict) : Prop :=
  (randomLat d = PNone /\ randomLong d = PNone) \/
  exists polygon_path point,
    Path (coordinates d) = Ok polygon_path /\
    randomLong d = PFloat (fst point) /\
    randomLat d = PFloat (snd point) /\
    In point points /\
    contains_point polygon_path point = true.

Definition result_map {A B : Type} (f : A -> B) (r : result A) : result B :=
  match r with
  | Ok a => Ok (f a)
  | Raise e => Raise e
  end.


(** One data row of the income response: the estimate B19013_001E and the
    state, county and tract codes, all strings. *)
Record row : Type := {
  estimate : string;
  state_code : string;
  county : string;
  tract : string
}.

Definition py_row (r : row) : pyval :=
  PList [PStr (estimate r); PStr (state_code r); PStr (county r); PStr (tract r)].

(** The estimate of a row is the sentinel or a string [int] reads. *)
Definition row_ok (r : row) : Prop :=
  estimate r = no_data \/ int_of_str (estimate r) <> None.

(** The income a row reports: zero for the sentinel. *)
Definition row_income (r : row) : Z :=
  if String.eqb (estimate r) no_data then 0
  else match int_of_str (estimate r) with
       | Some z => z
       | None => 0
       end.

Definition str_keys (d : list (pyval * Z)) : Prop :=
  Forall (fun kv => exists k, fst kv = PStr k) d.


End Vocabulary.

(** ** Vocabulary of the further properties *)

Section Further.
Context `{PyPrim} `{!Extern}.

(** The fields [fetchCensus] does not assign. *)
Definition same_but_tract (d d' : DetroitDistrict) : Prop :=
  coordinates d' = coordinates d /\
  holcGrade d' = holcGrade d /\
  holcColor d' = holcColor d /\
  id d' = id d /\
  description d' = description d /\
  randomLat d' = randomLat d /\
  randomLong d' = randomLong d /\
  medIncome d' = medIncome d.

(** The fields [fetchIncome] does not assign. *)
Definition same_but_income (d d' : DetroitDistrict) : Prop :=
  coordinates d' = coordinates d /\
  holcGrade d' = holcGrade d /\
  holcColor d' = holcColor d /\
  id d' = id d /\
  description d' = description d /\
  randomLat d' = randomLat d /\
  randomLong d' = randomLong d /\
  censusTract d' = censusTract d.

(** What [createDistricts] reads from the file into a district. *)
Definition loaded_fields (d : DetroitDistrict)
  : pyval * (pyval * (pyval * (pyval * pyval))) :=
  (coordinates d, (holcGrade d, (id d, (description d, holcColor d)))).

(** The test of line 225. *)
Definition has_point (d : DetroitDistrict) : bool :=
  negb (is_None (randomLat d)) && negb (is_None (randomLong d)).

Definition census_request (d : DetroitDistrict) : Request :=
  {| url := census_url; params := census_params d |}.

(** A record as the loader leaves it: no point, no income, no tract, and
    the colour [color_map] has for its grade. *)
Definition fresh (d : DetroitDistrict) : Prop :=
  randomLat d = PNone /\
  randomLong d = PNone /\
  medIncome d = PNone /\
  censusTract d = PNone /\
  dict_get color_map (holcGrade d) "grey" = Ok (holcColor d).

(** The income [fetchIncome] gives a district from the dict it built. *)
Definition income_of (income_data : list (pyval * Z)) (d : DetroitDistrict) : Z :=
  match dict_find (censusTract d) income_data with
  | Some income => income
  | None => 0
  end.

Definition data_file : string := "redlining/redlines_data.json".
Definition cache_file : string := "redlines_cache.json".

(** The calls [main] makes on its [RedLines] object, in order. *)
Definition main_calls : list method :=
  [Call_createDistricts data_file; Call_plotDistricts; Call_generateRandPoint;
   Call_fetchCensus; Call_fetchIncome; Call_calcRank; Call_calcPopu;
   Call_cacheData cache_file; Call_loadCache cache_file].

Definition main (w : World) (fs : filesystem) : State * result unit :=
  run main_calls (start w fs).

Definition is_createDistricts (m : method) : bool :=
  match m with
  | Call_createDistricts _ => true
  | _ => false
  end.

(** The entries of an item of the income response that the comprehension
    of line 267 reads: the estimate at 0, the county at 2 and the tract at
    3, all strings.  Entry 1 and any further entry are not read. *)
Definition shows (item : pyval) (r : row) : Prop :=
  getitem item 0 = Ok (PStr (estimate r)) /\
  getitem item 2 = Ok (PStr (county r)) /\
  getitem item 3 = Ok (PStr (tract r)).

(** The estimate of a row is the sentinel -666666666 or a string [int]
    reads. *)
Definition estimate_ok (r : row) : Prop :=
  estimate r = "-666666666" \/ int_of_str (estimate r) <> None.

(** The income a row reports, in the words of the specification: zero for
    the sentinel -666666666, else the number its estimate reads as. *)
Definition reported_income (r : row) : Z :=
  if String.eqb (estimate r) "-666666666" then 0
  else match int_of_str (estimate r) with
       | Some z => z
       | None => 0
       end.

(** The tract-to-income mapping in the words of the specification: the
    income of a tract id (county code then tract code) is the one its row
    reports; of two rows for one id the later counts. *)
Fixpoint table_income (rows : list row) (tract_id : string) : option Z :=
  match rows with
  | [] => None
  | r :: rest =>
      match table_income rest tract_id with
      | Some income => Some income
      | None =>
          if String.eqb tract_id (county r ++ tract r)%string
          then Some (reported_income r)
          else None
      end
  end.

(** The income the specification gives a district with the tract [t]: the
    mapped income, zero when the mapping has none or the tract is unset. *)
Definition tract_income (rows : list row) (t : pyval) : Z :=
  match t with
  | PStr tract_id =>
      match table_income rows tract_id with
      | Some income => income
      | None => 0
      end
  | _ => 0
  end.


End Further.


(** ** A small instance, for examples

    Floats are integers here, [int] reads an optional minus sign and
    decimal digits, a path is the bounding box of its vertices (the exact
    test for the axis-parallel squares of the examples), the grid is 5 x 5
    and the generator counts its draws. *)

Definition digit_of (c : ascii) : option Z :=
  let n := nat_of_ascii c in
  if (Nat.leb 48 n && Nat.leb n 57)%bool then Some (Z.of_nat (n - 48)) else None.

Fixpoint digits (s : string) (acc : Z) : option Z :=
  match s with
  | EmptyString => Some acc
  | String c s' =>
      match digit_of c with
      | Some d => digits s' (10 * acc + d)
      | None => None
      end
  end.

Definition decimal (s : string) : option Z :=
  match s with
  | EmptyString => None
  | String "-" EmptyString => None
  | String "-" s' => option_map Z.opp (digits s' 0)
  | _ => digits s 0
  end.

Definition lab_prim : PyPrim :=
  {| flt := Z;
     float_add := Z.add;
     float_of_int := fun z => Ok z;
     int_of_float := fun f => Ok f;
     float_eqb := Z.eqb;
     float_eq_int := Z.eqb;
     int_of_str := decimal |}.

Section Lab.
#[local] Existing Instance lab_prim.

Definition number (v : pyval) : option Z :=
  match v with
  | PInt z => Some z
  | PFloat f => Some f
  | _ => None
  end.

Definition vertex (v : pyval) : option (Z * Z) :=
  match v with
  | PList [x; y] =>
      match number x, number y with
      | Some a, Some b => Some (a, b)
      | _, _ => None
      end
  | _ => None
  end.

Fixpoint vertices (l : list pyval) : option (list (Z * Z)) :=
  match l with
  | [] => Some []
  | v :: rest =>
      match vertex v, vertices rest with
      | Some p, Some ps => Some (p :: ps)
      | _, _ => None
      end
  end.

Definition lab_Path (v : pyval) : result (list (Z * Z)) :=
  match v with
  | PList (v0 :: rest) =>
      match vertices (v0 :: rest) with
      | Some ps => Ok ps
      | None => Raise ValueError
      end
  | _ => Raise ValueError
  end.

Definition lab_contains (box : list (Z * Z)) (p : Z * Z) : bool :=
  (existsb (fun v => Z.ltb (fst v) (fst p)) box
   && existsb (fun v => Z.ltb (fst p) (fst v)) box
   && existsb (fun v => Z.ltb (snd v) (snd p)) box
   && existsb (fun v => Z.ltb (snd p) (snd v)) box)%bool.

Definition lab_points : list (Z * Z) :=
  flat_map (fun y => map (fun x => (x, y)) [0; 1; 2; 3; 4]) [0; 1; 2; 3; 4].

Definition lab_extern : Extern :=
  {| path := list (Z * Z);
     Path := lab_Path;
     contains_point := lab_contains;
     points := lab_points;
     rng := nat;
     seed := Z.to_nat;
     randbelow := fun g n => (Nat.modulo g n, S g);
     draw := fun _ => Ok tt |}.

#[local] Existing Instance lab_extern.

Definition square (x0 y0 x1 y1 : Z) : pyval :=
  PList [PList [PInt x0; PInt y0]; PList [PInt x1; PInt y0];
         PList [PInt x1; PInt y1]; PList [PInt x0; PInt y1];
         PList [PInt x0; PInt y0]].

Definition feature (grade holc_id text : string) (boundary : pyval) : pyval :=
  PDict [("type", PStr "Feature");
         ("geometry", PDict [("type", PStr "MultiPolygon");
                             ("coordinates", PList [PList [boundary]])]);
         ("properties", PDict [("holc_id", PStr holc_id);
                               ("holc_grade", PStr grade);
                               ("area_description_data", PDict [("8", PStr text)])])].

(** The same feature without its [holc_grade]. *)
Definition feature_no_grade (holc_id text : string) (boundary : pyval) : pyval :=
  PDict [("type", PStr "Feature");
         ("geometry", PDict [("type", PStr "MultiPolygon");
                             ("coordinates", PList [PList [boundary]])]);
         ("properties", PDict [("holc_id", PStr holc_id);
                               ("area_description_data", PDict [("8", PStr text)])])].

Definition featureA : pyval := feature "A" "A1" "well kept" (square 0 0 3 3).
Definition featureD : pyval := feature "D" "D1" "crowded" (square 2 2 4 4).
Definition featureX : pyval := feature_no_grade "X1" "unknown" (square 0 2 2 4).

Definition collection (features : list pyval) : pyval :=
  PDict [("type", PStr "FeatureCollection"); ("features", PList features)].

(** Three files: a good one, one whose second feature is malformed, and one
    that is not JSON. *)
Definition lab_files : filesystem :=
  fun name =>
    if String.eqb name "good.json" then Some (Doc (collection [featureA; featureD]))
    else if String.eqb name "bad.json"
         then Some (Doc (collection [featureA; featureX; featureD]))
    else if String.eqb name "notes.txt" then Some NotJSON
    else None.

Definition mk (coords : pyval) (grade holc_id text color : string)
  (lat long income tract : pyval) : DetroitDistrict :=
  {| coordinates := coords; holcGrade := PStr grade; id := PStr holc_id;
     description := PStr text; randomLat := lat; randomLong := long;
     medIncome := income; censusTract := tract; holcColor := PStr color |}.

Definition districtA : DetroitDistrict :=
  mk (square 0 0 3 3) "A" "A1" "well kept" "darkgreen" PNone PNone PNone PNone.
Definition districtD : DetroitDistrict :=
  mk (square 2 2 4 4) "D" "D1" "crowded" "maroon" PNone PNone PNone PNone.

(** Districts as the sampler and the tract lookup leave them. *)
Definition sampledA : DetroitDistrict :=
  mk (square 0 0 3 3) "A" "A1" "well kept" "darkgreen"
     (PFloat 1) (PFloat 2) PNone PNone.
Definition sampledD : DetroitDistrict :=
  mk (square 2 2 4 4) "D" "D1" "crowded" "maroon"
     (PFloat 3) (PFloat 3) PNone PNone.
Definition tractedA : DetroitDistrict :=
  mk (square 0 0 3 3) "A" "A1" "well kept" "darkgreen"
     (PFloat 1) (PFloat 2) PNone (PStr "163517200").
Definition tractedD : DetroitDistrict :=
  mk (square 2 2 4 4) "D" "D1" "crowded" "maroon"
     (PFloat 3) (PFloat 3) PNone (PStr "163500100").

(** A district too small to hold a point of the grid, and one whose
    coordinates are nested one level too deep. *)
Definition districtE : DetroitDistrict :=
  mk (square 0 0 1 1) "C" "C7" "small" "gold" PNone PNone PNone PNone.
Definition districtN : DetroitDistrict :=
  mk (PList [square 0 0 3 3]) "B" "B2" "nested" "cornflowerblue"
     PNone PNone PNone PNone.

Definition busy : Response :=
  {| status_code := 503; json := Raise JSONDecodeError;
     text := "Service Unavailable" |}.

Definition area_found : Response :=
  {| status_code := 200;
     json := Ok (PDict [("input", PDict [("lat", PFloat 1); ("lon", PFloat 2)]);
                        ("results",
                         PList [PDict [("block_fips", PStr "261635172001234");
                                       ("county_name", PStr "Wayne County")]])]);
     text := "" |}.

Definition busy_then_found : World :=
  {| script := [Answer busy; Answer area_found]; sent := [] |}.

Definition row_a : row :=
  {| estimate := "52000"; state_code := "26"; county := "163"; tract := "517200" |}.
Definition row_d : row :=
  {| estimate := "-666666666"; state_code := "26"; county := "163";
     tract := "500100" |}.
Definition row_other : row :=
  {| estimate := "41000"; state_code := "26"; county := "099"; tract := "200000" |}.

Definition income_header : pyval :=
  PList [PStr "B19013_001E"; PStr "state"; PStr "county"; PStr "tract"].

Definition income_found : Response :=
  {| status_code := 200;
     json := Ok (PList (income_header :: map py_row [row_a; row_d; row_other]));
     text := "" |}.

Definition income_denied : Response :=
  {| status_code := 403; json := Raise JSONDecodeError; text := "Forbidden" |}.

Definition answers (r : Response) : World := {| script := [Answer r]; sent := [] |}.


(** A feature of two polygons, the first with a hole. *)
Definition featureM : pyval :=
  PDict [("type", PStr "Feature");
         ("geometry",
          PDict [("type", PStr "MultiPolygon");
                 ("coordinates",
                  PList [PList [square 0 0 3 3; square 1 1 2 2];
                         PList [square 3 3 4 4]])]);
         ("properties",
          PDict [("holc_id", PStr "B5"); ("holc_grade", PStr "B");
                 ("area_description_data", PDict [("8", PStr "two parts")])])].

(** A district whose coordinates are the empty list. *)
Definition districtO : DetroitDistrict :=
  mk (PList []) "D" "D9" "no boundary" "maroon" PNone PNone PNone PNone.

Definition area_unknown : Response :=
  {| status_code := 200;
     json := Ok (PDict [("input", PDict [("lat", PFloat 3); ("lon", PFloat 3)]);
                        ("results", PList [])]);
     text := "" |}.

Definition area_short : Response :=
  {| status_code := 200;
     json := Ok (PDict [("results", PList [PDict [("block_fips", PStr "26163")]])]);
     text := "" |}.

Definition area_garbled : Response :=
  {| status_code := 200; json := Raise JSONDecodeError; text := "<html>" |}.

Definition row_bad : row :=
  {| estimate := "N/A"; state_code := "26"; county := "163"; tract := "511000" |}.

Definition income_garbled : Response :=
  {| status_code := 200;
     json := Ok (PList (income_header
                        :: map py_row [row_a] ++ py_row row_bad :: [py_row row_d]));
     text := "" |}.

(** The files with the data file of [main] in place, and the answers of a
    service that knows the first point, is busy for the second and has
    the income table. *)
Definition lab_disk : filesystem :=
  fun name =>
    if String.eqb name data_file then Some (Doc (collection [featureA; featureD]))
    else lab_files name.

Definition lab_service : World :=
  {| script := [Answer area_found; Answer busy; Answer income_found];
     sent := [] |}.


End Lab.

(** * Properties *)

Unset Implicit Arguments.

Section Properties.
Context `{PyPrim} `{!Extern}.

(** ** The constructor *)

(** C3.  Without a colour argument the colour of a district is a function
    of its grade alone: darkgreen for A, cornflowerblue for B, gold for C,
    maroon for D and grey for every other grade.  The constructor returns
    for every grade a dict can hash, so for every string. *)
Theorem init_color_of_grade :
  forall coords grade ident descr lat long income tract,
    hashable grade = true ->
    DetroitDistrict_init coords grade ident descr PNone lat long income tract
    = Ok {| coordinates := coords; holcGrade := grade; id := ident;
            description := descr; randomLat := lat; randomLong := long;
            medIncome := income; censusTract := tract;
            holcColor :=
              PStr (if eq_str grade "A" then "darkgreen"
                    else if eq_str grade "B" then "cornflowerblue"
                    else if eq_str grade "C" then "gold"
                    else if eq_str grade "D" then "maroon"
                    else "grey") |}.
Proof.
  intros coords grade ident descr lat long income tract Hh.
  unfold DetroitDistrict_init; simpl truthy; cbv iota.
  destruct grade as [| b | z | f | s | l | items]; simpl in Hh; try discriminate;
    try reflexivity.
  unfold dict_get, color_map, eq_str; simpl assoc.
  rewrite (String.eqb_sym s "A"), (String.eqb_sym s "B"),
    (String.eqb_sym s "C"), (String.eqb_sym s "D").
  destruct (String.eqb "A" s); [reflexivity|].
  destruct (String.eqb "B" s); [reflexivity|].
  destruct (String.eqb "C" s); [reflexivity|].
  destruct (String.eqb "D" s); reflexivity.
Qed.

(** ** Loading *)

Ltac bind_step :=
  match goal with
  | |- context [bind ?m _] => destruct m eqn:?; simpl
  | Hb : context [bind ?m _] |- _ => destruct m eqn:?; simpl in Hb
  end.

Lemma lacks_key_raises :
  forall v k, lacks_key v k = true -> getkey v k = Raise KeyError.
Proof.
  intros v k Hl. destruct v; simpl in Hl; try discriminate.
  simpl. destruct (assoc k items); [discriminate | reflexivity].
Qed.

Lemma init_fields :
  forall c g i t color lat long income tract d,
    DetroitDistrict_init c g i t color lat long income tract = Ok d ->
    coordinates d = c /\ holcGrade d = g /\ id d = i /\ description d = t /\
    randomLat d = lat /\ randomLong d = long /\ medIncome d = income /\
    censusTract d = tract.
Proof.
  intros c g i t color lat long income tract d Hd.
  unfold DetroitDistrict_init in Hd.
  bind_step; [| discriminate].
  injection Hd as <-. simpl. repeat split.
Qed.

Lemma make_district_built :
  forall feature d, make_district feature = Ok d -> built_from feature d.
Proof.
  intros feature d Hd. unfold make_district in Hd.
  repeat (bind_step; [| discriminate]).
  apply init_fields in Hd.
  destruct Hd as (Hc & Hg & Hi & Ht & _). subst.
  unfold built_from. do 5 eexists. repeat split; eassumption.
Qed.

Lemma lacking_feature_raises :
  forall feature,
    lacks_required_key feature = true -> raised (make_district feature) = true.
Proof.
  intros feature Hl. unfold lacks_required_key in Hl.
  unfold make_district.
  destruct (getkey feature "properties") as [properties |] eqn:Hp;
    [simpl | discriminate].
  repeat (bind_step; [| reflexivity]).
  rewrite !orb_true_iff in Hl.
  destruct Hl as [[[Hl | Hl] | Hl] | Hl];
    apply lacks_key_raises in Hl; congruence.
Qed.

Lemma append_districts_all :
  forall features made districts,
    Forall2 (fun f d => make_district f = Ok d) features made ->
    append_districts features districts = (districts ++ made, Ok tt).
Proof.
  intros features made districts Hall. revert districts.
  induction Hall as [| f d features made Hf _ IH]; intros districts; simpl.
  - now rewrite app_nil_r.
  - rewrite Hf, IH, <- app_assoc. reflexivity.
Qed.

Lemma append_districts_stops :
  forall good made bad e rest districts,
    Forall2 (fun f d => make_district f = Ok d) good made ->
    make_district bad = Raise e ->
    append_districts (good ++ bad :: rest) districts = (districts ++ made, Raise e).
Proof.
  intros good made bad e rest districts Hall Hbad. revert districts.
  induction Hall as [| f d good made Hf _ IH]; intros districts; simpl.
  - now rewrite Hbad, app_nil_r.
  - rewrite Hf, IH, <- app_assoc. reflexivity.
Qed.

Lemma append_districts_lacking :
  forall features districts,
    existsb lacks_required_key features = true ->
    exists e made,
      append_districts features districts = (districts ++ made, Raise e) /\
      Forall (fun d => exists f, In f features /\ built_from f d) made.
Proof.
  induction features as [| f features IH]; intros districts Hex; simpl in Hex.
  - discriminate.
  - simpl. destruct (make_district f) as [d | e] eqn:Hf.
    + assert (Hrest : existsb lacks_required_key features = true).
      { destruct (lacks_required_key f) eqn:Hl; [| exact Hex].
        apply lacking_feature_raises in Hl. rewrite Hf in Hl. discriminate. }
      destruct (IH (districts ++ [d]) Hrest) as (e & made & Heq & Hall).
      exists e, (d :: made). split.
      * rewrite Heq, <- app_assoc. reflexivity.
      * constructor.
        -- exists f. split; [now left | now apply make_district_built].
        -- eapply Forall_impl; [| exact Hall].
           intros d' (f' & Hin & Hb). exists f'. split; [now right | exact Hb].
    + exists e, []. split; [now rewrite app_nil_r | constructor].
Qed.

(** C7.  Loading raises, and the exception reaches the caller, when the
    file is absent, when it is not JSON and when some feature lacks a
    required key of its properties.  In the first two cases the list of
    districts is as before; in the third every record added before the
    exception holds, in each field the loader fills, the value its feature
    has for it, so none is partial. *)
Theorem createDistricts_propagates :
  forall fs fileName districts,
    (fs fileName = None ->
     createDistricts fs fileName districts = (districts, Raise FileNotFoundError))
    /\
    (fs fileName = Some NotJSON ->
     createDistricts fs fileName districts = (districts, Raise JSONDecodeError))
    /\
    (forall data features,
       fs fileName = Some (Doc data) ->
       features_of data = Ok features ->
       existsb lacks_required_key features = true ->
       exists e made,
         createDistricts fs fileName districts = (districts ++ made, Raise e) /\
         Forall (fun d => exists f, In f features /\ built_from f d) made).
Proof.
  intros fs fileName districts. unfold createDistricts.
  split; [| split].
  - intros ->. reflexivity.
  - intros ->. reflexivity.
  - intros data features -> -> Hex. now apply append_districts_lacking.
Qed.

Lemma append_districts_inv :
  forall features districts,
    exists good made rest,
      features = good ++ rest /\
      Forall2 (fun f d => make_district f = Ok d) good made /\
      fst (append_districts features districts) = districts ++ made /\
      match rest with
      | [] => snd (append_districts features districts) = Ok tt
      | bad :: _ =>
          exists e, make_district bad = Raise e /\
                    snd (append_districts features districts) = Raise e
      end.
Proof.
  induction features as [| f features IH]; intros districts; simpl.
  - exists [], [], []. repeat split; [constructor | now rewrite app_nil_r].
  - destruct (make_district f) as [d | e] eqn:Hf.
    + destruct (IH (districts ++ [d])) as (good & made & rest & -> & Hall & Hfst & Hsnd).
      exists (f :: good), (d :: made), rest. repeat split.
      * now constructor.
      * rewrite Hfst, <- app_assoc. reflexivity.
      * exact Hsnd.
    + exists [], [], (f :: features). repeat split.
      * constructor.
      * now rewrite app_nil_r.
      * exists e. split; [exact Hf | reflexivity].
Qed.


(** C9.  Loading is not atomic and appends.  When the features before the
    first malformed one are [good], the records made from them stay at the
    end of the list the catalog had, and the exception of the malformed
    feature is the outcome.  A load that succeeds adds its records after
    the ones present, so loading the same file again holds them twice. *)
Theorem createDistricts_appends :
  forall fs fileName districts data,
    fs fileName = Some (Doc data) ->
    (forall good bad rest made e,
       features_of data = Ok (good ++ bad :: rest) ->
       Forall2 (fun f d => make_district f = Ok d) good made ->
       make_district bad = Raise e ->
       createDistricts fs fileName districts = (districts ++ made, Raise e) /\
       List.length made = List.length good)
    /\
    (forall loaded,
       createDistricts fs fileName districts = (loaded, Ok tt) ->
       exists made,
         loaded = districts ++ made /\
         createDistricts fs fileName loaded = (districts ++ made ++ made, Ok tt)).
Proof.
  intros fs fileName districts data Hfile. unfold createDistricts.
  rewrite Hfile. split.
  - intros good bad rest made e -> Hgood Hbad. split.
    + now apply append_districts_stops.
    + symmetry. eapply Forall2_length; eassumption.
  - intros loaded Hload.
    destruct (features_of data) as [features | e]; [| discriminate].
    destruct (append_districts_inv features districts) as (good & made & rest & Hf & Hall & Hres).
    rewrite Hload in Hres. simpl in Hres. destruct Hres as [-> Hrest].
    assert (rest = []) as ->.
    { destruct rest as [| bad rest]; [reflexivity |].
      destruct Hrest as (e & Hbad & Habs). discriminate. }
    rewrite app_nil_r in Hf. subst good.
    exists made. split; [reflexivity |].
    rewrite (append_districts_all _ _ _ Hall), <- app_assoc. reflexivity.
Qed.


(** ** The loop over the districts *)

Lemma for_districts_Forall2 :
  forall (S : Type) (body : S -> DetroitDistrict -> S * result DetroitDistrict)
         (R : DetroitDistrict -> DetroitDistrict -> Prop),
    (forall d, R d d) ->
    (forall s d s' d', body s d = (s', Ok d') -> R d d') ->
    forall districts s,
      Forall2 R districts (fst (fst (for_districts body s districts))).
Proof.
  intros S body R Hrefl Hbody districts.
  induction districts as [| d rest IH]; intros s; simpl.
  - constructor.
  - destruct (body s d) as [s' [d' | e]] eqn:Hd.
    + specialize (IH s').
      destruct (for_districts body s' rest) as [[rest' s''] r]. simpl in *.
      constructor; [eapply Hbody; eassumption | exact IH].
    + simpl. clear IH Hd. constructor; [apply Hrefl |].
      induction rest; constructor; auto.
Qed.

Lemma for_districts_Forall :
  forall (S : Type) (body : S -> DetroitDistrict -> S * result DetroitDistrict)
         (P : DetroitDistrict -> Prop),
    (forall s d s' d', body s d = (s', Ok d') -> P d -> P d') ->
    forall districts s,
      Forall P districts ->
      Forall P (fst (fst (for_districts body s districts))).
Proof.
  intros S body P Hbody districts.
  induction districts as [| d rest IH]; intros s Hall; simpl.
  - constructor.
  - inversion Hall as [| ? ? Hd Hrest]; subst.
    destruct (body s d) as [s' [d' | e]] eqn:Hb.
    + specialize (IH s' Hrest).
      destruct (for_districts body s' rest) as [[rest' s''] r]. simpl in *.
      constructor; [eapply Hbody; eassumption | exact IH].
    + simpl. exact Hall.
Qed.

Lemma firstn_skipn_middle :
  forall (A : Type) (before after : list A) (x : A),
    firstn (List.length before) (before ++ after)
    ++ x :: skipn (List.length before) (before ++ after)
    = before ++ x :: after.
Proof.
  intros A before after x. induction before as [| a before IH]; simpl.
  - reflexivity.
  - now rewrite IH.
Qed.

Lemma for_districts_skip :
  forall (S : Type) (body : S -> DetroitDistrict -> S * result DetroitDistrict)
         (d : DetroitDistrict),
    (forall s, body s d = (s, Ok d)) ->
    forall before after s,
      for_districts body s (before ++ d :: after)
      = let '(ds, s', r) := for_districts body s (before ++ after) in
        (firstn (List.length before) ds ++ d :: skipn (List.length before) ds,
         s', r).
Proof.
  intros S body d Hskip before after.
  induction before as [| a before IH]; intros s; simpl.
  - rewrite Hskip.
    destruct (for_districts body s after) as [[ds s'] r]. reflexivity.
  - destruct (body s a) as [s' [a' | e]].
    + rewrite IH.
      destruct (for_districts body s' (before ++ after)) as [[ds s''] r].
      reflexivity.
    + simpl. now rewrite firstn_skipn_middle.
Qed.


(** ** Sampling *)

Lemma masked_filter :
  forall (A : Type) (f : A -> bool) (xs : list A),
    masked xs (map f xs) = filter f xs.
Proof.
  intros A f xs. unfold masked.
  induction xs as [| x xs IH]; simpl; [reflexivity |].
  destruct (f x); simpl; now rewrite IH.
Qed.

Lemma valid_points_filter :
  forall polygon_path,
    valid_points polygon_path = filter (contains_point polygon_path) points.
Proof. intros polygon_path. apply masked_filter. Qed.

Lemma set_point_same :
  forall d point, same_but_point d (set_point d point).
Proof. intros d point. unfold same_but_point. simpl. repeat split. Qed.

Lemma same_but_point_refl : forall d, same_but_point d d.
Proof. intros d. unfold same_but_point. repeat split. Qed.

(** The three ways the body of the loop ends without an exception. *)
Lemma sample_cases :
  forall s d s' d',
    sample s d = (s', Ok d') ->
    (coordinates_ok (coordinates d) = false /\ s' = s /\ d' = d)
    \/ (exists polygon_path,
          coordinates_ok (coordinates d) = true /\
          Path (coordinates d) = Ok polygon_path /\
          filter (contains_point polygon_path) points = [] /\
          s' = s /\ d' = d)
    \/ (exists polygon_path point,
          coordinates_ok (coordinates d) = true /\
          Path (coordinates d) = Ok polygon_path /\
          nth_error (filter (contains_point polygon_path) points)
            (fst (randbelow (fst s)
                    (List.length (filter (contains_point polygon_path) points))))
          = Some point /\
          fst s' = snd (randbelow (fst s)
                    (List.length (filter (contains_point polygon_path) points))) /\
          d' = set_point d point).
Proof.
  intros s d s' d' Hs. unfold sample in Hs.
  destruct (coordinates_ok (coordinates d)) eqn:Hok.
  - right.
    destruct (Path (coordinates d)) as [polygon_path | e] eqn:Hp;
      [| discriminate].
    rewrite valid_points_filter in Hs.
    destruct (filter (contains_point polygon_path) points) as [| p valid] eqn:Hv.
    + left. simpl in Hs. injection Hs as <- <-.
      exists polygon_path. repeat split; assumption.
    + right. cbn [List.length Nat.ltb Nat.leb Nat.mul Nat.add] in Hs.
      unfold choice in Hs.
      destruct (randbelow (fst s) (List.length (p :: valid))) as [i g'] eqn:Hr.
      destruct (nth_error (p :: valid) i) as [point |] eqn:Hn;
        [| discriminate].
      injection Hs as <- <-.
      exists polygon_path, point. rewrite Hv, Hr. simpl.
      repeat split; assumption.
  - left. injection Hs as <- <-. repeat split.
Qed.

(** C10.  A district whose coordinates are not a list of two-element lists
    comes out of [generateRandPoint] as it went in, and every other
    district comes out with the same coordinates, grade, colour,
    identifier, description, income and tract: only [randomLat] and
    [randomLong] are assigned.  This holds for the list the call leaves
    behind whether or not it ended with an exception. *)
Theorem generateRandPoint_frame :
  forall g out districts,
    Forall2
      (fun d d' =>
         same_but_point d d' /\
         (coordinates_ok (coordinates d) = false -> d' = d))
      districts
      (fst (fst (generateRandPoint g out districts))).
Proof.
  intros g out districts. unfold generateRandPoint.
  apply for_districts_Forall2.
  - intros d. split; [apply same_but_point_refl | reflexivity].
  - intros s d s' d' Hs.
    destruct (sample_cases _ _ _ _ Hs)
      as [(Hok & _ & ->) | [(p & Hok & _ & _ & _ & ->) | (p & pt & Hok & _ & _ & _ & ->)]].
    + split; [apply same_but_point_refl | reflexivity].
    + split; [apply same_but_point_refl | reflexivity].
    + split; [apply set_point_same | congruence].
Qed.

Lemma sample_nothing_inside :
  forall s d polygon_path,
    Path (coordinates d) = Ok polygon_path ->
    (forall p, In p points -> contains_point polygon_path p = false) ->
    sample s d = (s, Ok d).
Proof.
  intros s d polygon_path Hp Hout. unfold sample.
  destruct (coordinates_ok (coordinates d)); [| reflexivity].
  rewrite Hp, valid_points_filter.
  assert (Hv : filter (contains_point polygon_path) points = []).
  { induction points as [| p ps IH]; simpl; [reflexivity |].
    rewrite (Hout p (or_introl eq_refl)). apply IH.
    intros q Hq. apply Hout. now right. }
  rewrite Hv. reflexivity.
Qed.


Lemma sample_reads_view :
  forall s1 s2 d1 d2,
    fst s1 = fst s2 ->
    sampler_view d1 = sampler_view d2 ->
    fst (fst (sample s1 d1)) = fst (fst (sample s2 d2)) /\
    result_map sampler_view (snd (sample s1 d1))
    = result_map sampler_view (snd (sample s2 d2)).
Proof.
  intros s1 s2 d1 d2 Hg Hv. unfold sampler_view, sampled in Hv.
  injection Hv as Hc Hlat Hlong.
  unfold sample. rewrite Hc, Hg.
  destruct (coordinates_ok (coordinates d2)).
  - destruct (Path (coordinates d2)) as [polygon_path | e].
    + destruct (Nat.ltb 0 (2 * List.length (valid_points polygon_path))).
      * destruct (choice (fst s2) (valid_points polygon_path)) as [g' [point | e]];
          simpl; unfold sampler_view, sampled; simpl; split; congruence.
      * simpl. unfold sampler_view, sampled. split; congruence.
    + simpl. split; [assumption | reflexivity].
  - simpl. unfold sampler_view, sampled. split; congruence.
Qed.

Lemma for_districts_sample_view :
  forall ds1 ds2 s1 s2,
    fst s1 = fst s2 ->
    map sampler_view ds1 = map sampler_view ds2 ->
    map sampler_view (fst (fst (for_districts sample s1 ds1)))
    = map sampler_view (fst (fst (for_districts sample s2 ds2))) /\
    fst (snd (fst (for_districts sample s1 ds1)))
    = fst (snd (fst (for_districts sample s2 ds2))) /\
    snd (for_districts sample s1 ds1) = snd (for_districts sample s2 ds2).
Proof.
  induction ds1 as [| d1 ds1 IH]; intros [| d2 ds2] s1 s2 Hg Hv;
    simpl in Hv; try discriminate.
  - simpl. repeat split. exact Hg.
  - remember (sampler_view d1) as v1 eqn:Hv1.
    remember (sampler_view d2) as v2 eqn:Hv2.
    injection Hv as Hd Hrest. subst v1 v2.
    destruct (sample_reads_view s1 s2 d1 d2 Hg Hd) as [Hg' Hr].
    simpl.
    destruct (sample s1 d1) as [s1' [d1' | e1]];
      destruct (sample s2 d2) as [s2' [d2' | e2]];
      simpl in Hg', Hr; try discriminate.
    + assert (Hd' : sampler_view d1' = sampler_view d2') by congruence.
      clear Hr.
      specialize (IH ds2 s1' s2' Hg' Hrest).
      destruct (for_districts sample s1' ds1) as [[ds1' t1] r1].
      destruct (for_districts sample s2' ds2) as [[ds2' t2] r2].
      simpl in *. destruct IH as (Hm & Ht & Hres).
      repeat split; congruence.
    + simpl. repeat split; congruence.
Qed.

(** C6.  The sampler is a function of the state of the generator, of the
    grid and of the districts: two runs that start from the same state of
    the generator (the one the fixed seed gives, or any other) on lists of
    districts with the same coordinates and the same points before the run
    leave the same point in every district, the same state of the generator
    and the same outcome, whatever was printed before and whatever the
    other fields of the districts are. *)
Theorem generateRandPoint_deterministic :
  forall g out1 out2 ds1 ds2,
    map sampler_view ds1 = map sampler_view ds2 ->
    map sampled (fst (fst (generateRandPoint g out1 ds1)))
    = map sampled (fst (fst (generateRandPoint g out2 ds2))) /\
    fst (snd (fst (generateRandPoint g out1 ds1)))
    = fst (snd (fst (generateRandPoint g out2 ds2))) /\
    snd (generateRandPoint g out1 ds1) = snd (generateRandPoint g out2 ds2).
Proof.
  intros g out1 out2 ds1 ds2 Hv. unfold generateRandPoint.
  destruct (for_districts_sample_view ds1 ds2 (g, out1) (g, out2) eq_refl Hv)
    as (Hm & Hg & Hr).
  repeat split; try assumption.
  assert (Hs : forall l, map sampled l = map snd (map sampler_view l)).
  { intros l. rewrite map_map. reflexivity. }
  now rewrite !Hs, Hm.
Qed.


(** ** The sampled point through the other methods *)

Lemma point_inside_view :
  forall d d',
    sampler_view d' = sampler_view d -> point_inside d -> point_inside d'.
Proof.
  intros d d' Hv Hd. unfold sampler_view, sampled in Hv.
  injection Hv as Hc Hlat Hlong.
  unfold point_inside. rewrite Hc, Hlat, Hlong. exact Hd.
Qed.

Lemma Forall2_view_map :
  forall ds ds',
    Forall2 (fun d d' => sampler_view d' = sampler_view d) ds ds' ->
    map sampler_view ds' = map sampler_view ds.
Proof.
  intros ds ds' Hall. induction Hall as [| d d' ds ds' Hd _ IH]; simpl.
  - reflexivity.
  - now rewrite Hd, IH.
Qed.

Lemma sample_keeps_inside :
  forall s d s' d',
    sample s d = (s', Ok d') -> point_inside d -> point_inside d'.
Proof.
  intros s d s' d' Hs Hd.
  destruct (sample_cases _ _ _ _ Hs)
    as [(_ & _ & ->) | [(p & _ & _ & _ & _ & ->) | (p & pt & _ & Hp & Hn & _ & ->)]];
    try exact Hd.
  right. exists p, pt. simpl.
  apply nth_error_In, filter_In in Hn. destruct Hn as [Hin Hc].
  repeat split; assumption.
Qed.

Lemma read_tract_view :
  forall response d d',
    read_tract response d = Ok d' -> sampler_view d' = sampler_view d.
Proof.
  intros response d d' Hr. unfold read_tract in Hr.
  destruct (Z.eqb (status_code response) 200); [| now injection Hr as <-].
  do 2 (bind_step; [| discriminate]).
  match type of Hr with
  | (if ?b then _ else _) = _ => destruct b; [| now injection Hr as <-]
  end.
  do 2 (bind_step; [| discriminate]).
  match type of Hr with
  | (if ?b then _ else _) = _ => destruct b; [| now injection Hr as <-]
  end.
  repeat (bind_step; [| discriminate]).
  now injection Hr as <-.
Qed.

Lemma fetch_tract_view :
  forall w d w' d',
    fetch_tract w d = (w', Ok d') -> sampler_view d' = sampler_view d.
Proof.
  intros w d w' d' Hf. unfold fetch_tract in Hf.
  destruct (negb (is_None (randomLat d)) && negb (is_None (randomLong d)))%bool;
    [| now injection Hf as _ <-].
  destruct (requests_get w census_url (census_params d)) as [w1 [response | e]];
    [| discriminate].
  injection Hf as _ Hr. eapply read_tract_view; eassumption.
Qed.

Lemma assign_income_view :
  forall income_data out d out' d',
    assign_income income_data out d = (out', Ok d') ->
    sampler_view d' = sampler_view d.
Proof.
  intros income_data out d out' d' Ha. unfold assign_income in Ha.
  destruct (hashable (censusTract d)); [| discriminate].
  destruct (dict_find (censusTract d) income_data);
    now injection Ha as _ <-.
Qed.

Lemma make_district_unsampled :
  forall feature d,
    make_district feature = Ok d -> sampled d = (PNone, PNone).
Proof.
  intros feature d Hd. unfold make_district in Hd.
  repeat (bind_step; [| discriminate]).
  apply init_fields in Hd.
  destruct Hd as (_ & _ & _ & _ & Hlat & Hlong & _).
  unfold sampled. now rewrite Hlat, Hlong.
Qed.

Lemma createDistricts_adds :
  forall fs fileName districts,
    exists made,
      fst (createDistricts fs fileName districts) = districts ++ made /\
      Forall (fun d => sampled d = (PNone, PNone)) made.
Proof.
  intros fs fileName districts. unfold createDistricts.
  destruct (fs fileName) as [[| data] |];
    try (exists []; simpl; rewrite app_nil_r; split; [reflexivity | constructor]).
  destruct (features_of data) as [features | e];
    [| exists []; simpl; rewrite app_nil_r; split; [reflexivity | constructor]].
  destruct (append_districts_inv features districts)
    as (good & made & rest & _ & Hall & Hfst & _).
  exists made. split; [exact Hfst |].
  clear Hfst. induction Hall as [| f d good made Hf _ IH]; constructor.
  - eapply make_district_unsampled; eassumption.
  - exact IH.
Qed.

(** The districts a call starts with keep their coordinates and their
    point, unless the call is the sampler; the districts it adds have no
    point. *)
Lemma call_keeps_view :
  forall m st,
    m <> Call_generateRandPoint ->
    exists made,
      map sampler_view (districts (fst (call m st)))
      = map sampler_view (districts st) ++ map sampler_view made /\
      Forall (fun d => sampled d = (PNone, PNone)) made.
Proof.
  intros m st Hm.
  assert (Hsame : forall ds,
             map sampler_view ds = map sampler_view (districts st) ->
             exists made,
               map sampler_view ds
               = map sampler_view (districts st) ++ map sampler_view made /\
               Forall (fun d => sampled d = (PNone, PNone)) made).
  { intros ds ->. exists []. simpl. rewrite app_nil_r. split; [reflexivity | constructor]. }
  destruct m; try contradiction; simpl; try (apply Hsame; reflexivity).
  - destruct (createDistricts_adds (files st) fileName (districts st))
      as (made & Hfst & Hall).
    destruct (createDistricts (files st) fileName (districts st)) as [ds r].
    simpl in *. exists made. rewrite Hfst, map_app. split; [reflexivity | exact Hall].
  - unfold plotDistricts.
    destruct (draw _); simpl; apply Hsame; reflexivity.
  - pose proof (for_districts_Forall2 _ fetch_tract
                  (fun d d' => sampler_view d' = sampler_view d)
                  (fun d => eq_refl) fetch_tract_view (districts st) (network st))
      as Hall.
    unfold fetchCensus.
    destruct (for_districts fetch_tract (network st) (districts st)) as [[ds w] r].
    simpl in *. apply Hsame. now apply Forall2_view_map.
  - unfold fetchIncome.
    destruct (requests_get (network st) income_url income_params)
      as [w [response | e]]; simpl; [| apply Hsame; reflexivity].
    destruct (Z.eqb (status_code response) 200); simpl;
      [| apply Hsame; reflexivity].
    destruct (read_income response) as [income_data | e]; simpl;
      [| apply Hsame; reflexivity].
    pose proof (for_districts_Forall2 _ (assign_income income_data)
                  (fun d d' => sampler_view d' = sampler_view d)
                  (fun d => eq_refl) (assign_income_view income_data)
                  (districts st) (stdout st ++ [PrintIncomeData]))
      as Hall.
    destruct (for_districts (assign_income income_data)
                (stdout st ++ [PrintIncomeData]) (districts st)) as [[ds out] r].
    simpl in *. apply Hsame. now apply Forall2_view_map.
Qed.

Lemma Forall_view :
  forall ds ds',
    map sampler_view ds' = map sampler_view ds ->
    Forall point_inside ds -> Forall point_inside ds'.
Proof.
  induction ds as [| d ds IH]; intros [| d' ds'] Hm Hall;
    simpl in Hm; try discriminate.
  - constructor.
  - remember (sampler_view d) as v eqn:Hv.
    remember (sampler_view d') as v' eqn:Hv'.
    injection Hm as Hd Hrest. subst v v'.
    inversion Hall as [| ? ? Hpd Hpds]; subst.
    constructor; [eapply point_inside_view; eassumption | now apply IH].
Qed.

Lemma call_keeps_inside :
  forall m st,
    Forall point_inside (districts st) ->
    Forall point_inside (districts (fst (call m st))).
Proof.
  intros m st Hall.
  assert (Hs : m = Call_generateRandPoint \/ m <> Call_generateRandPoint).
  { destruct m; (left; reflexivity) || (right; discriminate). }
  destruct Hs as [-> | Hm].
  - simpl.
    pose proof (for_districts_Forall _ sample point_inside sample_keeps_inside
                  (districts st) (random st, stdout st) Hall) as Hafter.
    unfold generateRandPoint.
    destruct (for_districts sample (random st, stdout st) (districts st))
      as [[ds [g out]] r]. exact Hafter.
  - destruct (call_keeps_view m st Hm) as (made & Hview & Hmade).
    rewrite <- map_app in Hview.
    eapply Forall_view; [exact Hview |].
    apply Forall_app. split; [exact Hall |].
    eapply Forall_impl; [| exact Hmade].
    intros d Hd. left. unfold sampled in Hd. now injection Hd as -> ->.
Qed.

Lemma run_keeps_inside :
  forall ms st,
    Forall point_inside (districts st) ->
    Forall point_inside (districts (fst (run ms st))).
Proof.
  induction ms as [| m ms IH]; intros st Hall; simpl.
  - exact Hall.
  - pose proof (call_keeps_inside m st Hall) as Hm.
    destruct (call m st) as [st' [u | e]]; simpl in *.
    + now apply IH.
    + exact Hm.
Qed.

(** C5.  A district whose polygon holds no point of the grid is passed
    over: the body of the loop returns it as it is, raises nothing and
    draws nothing from the generator, and the call treats the other
    districts, before and after it, exactly as it would without it.  In
    every catalog reached from the empty one such a district has no point,
    so its [randomLat] and [randomLong] are [None] before and after. *)
Theorem generateRandPoint_skips_empty :
  forall g out before district after polygon_path,
    Path (coordinates district) = Ok polygon_path ->
    (forall p, In p points -> contains_point polygon_path p = false) ->
    sample (g, out) district = ((g, out), Ok district) /\
    generateRandPoint g out (before ++ district :: after)
    = (let '(ds, s, r) := generateRandPoint g out (before ++ after) in
       (firstn (List.length before) ds
        ++ district :: skipn (List.length before) ds, s, r)) /\
    (forall ms w fs,
       In district (districts (fst (run ms (start w fs)))) ->
       randomLat district = PNone /\ randomLong district = PNone).
Proof.
  intros g out before district after polygon_path Hp Hout.
  split; [| split].
  - eapply sample_nothing_inside; eassumption.
  - unfold generateRandPoint. apply for_districts_skip.
    intros s. eapply sample_nothing_inside; eassumption.
  - intros ms w fs Hin.
    assert (Hall : Forall point_inside (districts (fst (run ms (start w fs))))).
    { apply run_keeps_inside. simpl. constructor. }
    rewrite Forall_forall in Hall.
    destruct (Hall district Hin) as [Hnone | (q & pt & Hq & _ & _ & Hpt & Hc)].
    + exact Hnone.
    + rewrite Hp in Hq. injection Hq as <-.
      rewrite (Hout pt Hpt) in Hc. discriminate.
Qed.

Lemma sample_assigns :
  forall s d polygon_path,
    coordinates_ok (coordinates d) = true ->
    Path (coordinates d) = Ok polygon_path ->
    (fst (randbelow (fst s)
            (List.length (filter (contains_point polygon_path) points)))
     < List.length (filter (contains_point polygon_path) points))%nat ->
    exists point,
      nth_error (filter (contains_point polygon_path) points)
        (fst (randbelow (fst s)
                (List.length (filter (contains_point polygon_path) points))))
      = Some point /\
      snd (sample s d) = Ok (set_point d point).
Proof.
  intros s d polygon_path Hok Hp Hlt. unfold sample.
  rewrite Hok, Hp, valid_points_filter.
  destruct (filter (contains_point polygon_path) points) as [| p valid] eqn:Hv.
  - simpl in Hlt. lia.
  - assert (Hpos : Nat.ltb 0 (2 * List.length (p :: valid)) = true)
      by reflexivity.
    rewrite Hpos. unfold choice.
    destruct (randbelow (fst s) (List.length (p :: valid))) as [i g'] eqn:Hr.
    simpl fst in Hlt. simpl fst.
    destruct (nth_error (p :: valid) i) as [point |] eqn:Hn.
    + exists point. split; reflexivity.
    + apply nth_error_None in Hn. lia.
Qed.

Lemma inside_point_one_index :
  forall polygon_path point,
    NoDup points ->
    In point points ->
    contains_point polygon_path point = true ->
    exists i,
      nth_error (filter (contains_point polygon_path) points) i = Some point /\
      forall j,
        nth_error (filter (contains_point polygon_path) points) j = Some point ->
        j = i.
Proof.
  intros polygon_path point Hnd Hin Hc.
  assert (Hf : In point (filter (contains_point polygon_path) points)).
  { apply filter_In. split; assumption. }
  destruct (In_nth_error _ _ Hf) as [i Hi].
  exists i. split; [exact Hi |].
  intros j Hj.
  pose proof (NoDup_filter (contains_point polygon_path) Hnd) as Hnd'.
  rewrite NoDup_nth_error in Hnd'.
  apply Hnd'.
  - apply nth_error_Some. rewrite Hj. discriminate.
  - now rewrite Hi, Hj.
Qed.

(** C2.  The sampler either leaves a district alone (its coordinates fail
    the test of line 183, or no grid point is inside its polygon) or
    assigns it the entry of the list of all grid points inside the polygon
    (the grid filtered by the test, in grid order) at the index the
    generator draws below the length of that list; the point is then a
    point of the grid and passes the test, and it is assigned whenever the
    draw is below the length.  When the grid has no point twice, every grid
    point inside the polygon sits at exactly one index of that list, so
    the choice is as uniform as the draw of the index.  Every method keeps
    the invariant that a district has no point or a grid point inside its
    polygon, along any sequence of calls and so from the empty catalog,
    and no method but the sampler changes the coordinates or the point of
    a district that is present. *)
Theorem sampled_point_inside :
  (forall s d s' d',
     sample s d = (s', Ok d') ->
     (d' = d /\ s' = s /\
      (coordinates_ok (coordinates d) = false \/
       exists polygon_path,
         Path (coordinates d) = Ok polygon_path /\
         filter (contains_point polygon_path) points = []))
     \/
     (exists polygon_path point,
        Path (coordinates d) = Ok polygon_path /\
        nth_error (filter (contains_point polygon_path) points)
          (fst (randbelow (fst s)
                  (List.length (filter (contains_point polygon_path) points))))
        = Some point /\
        d' = set_point d point /\
        In point points /\
        contains_point polygon_path point = true))
  /\
  (forall s d polygon_path,
     coordinates_ok (coordinates d) = true ->
     Path (coordinates d) = Ok polygon_path ->
     (fst (randbelow (fst s)
             (List.length (filter (contains_point polygon_path) points)))
      < List.length (filter (contains_point polygon_path) points))%nat ->
     exists point,
       nth_error (filter (contains_point polygon_path) points)
         (fst (randbelow (fst s)
                 (List.length (filter (contains_point polygon_path) points))))
       = Some point /\
       snd (sample s d) = Ok (set_point d point))
  /\
  (forall polygon_path point,
     NoDup points ->
     In point points ->
     contains_point polygon_path point = true ->
     exists i,
       nth_error (filter (contains_point polygon_path) points) i = Some point /\
       forall j,
         nth_error (filter (contains_point polygon_path) points) j = Some point ->
         j = i)
  /\
  (forall ms st,
     Forall point_inside (districts st) ->
     Forall point_inside (districts (fst (run ms st))))
  /\
  (forall ms w fs,
     Forall point_inside (districts (fst (run ms (start w fs)))))
  /\
  (forall m st,
     m <> Call_generateRandPoint ->
     map sampler_view
       (firstn (List.length (districts st)) (districts (fst (call m st))))
     = map sampler_view (districts st)).
Proof.
  split; [| split; [| split; [| split; [| split]]]].
  - intros s d s' d' Hs.
    destruct (sample_cases _ _ _ _ Hs)
      as [(Hok & -> & ->) | [(p & _ & Hp & Hv & -> & ->) | (p & pt & _ & Hp & Hn & _ & ->)]].
    + left. repeat split. now left.
    + left. repeat split. right. exists p. split; assumption.
    + right. exists p, pt.
      pose proof Hn as Hin. apply nth_error_In, filter_In in Hin.
      destruct Hin as [Hin Hc]. repeat split; assumption.
  - exact sample_assigns.
  - exact inside_point_one_index.
  - exact run_keeps_inside.
  - intros ms w fs. apply run_keeps_inside. simpl. constructor.
  - intros m st Hm.
    destruct (call_keeps_view m st Hm) as (made & Hview & _).
    rewrite <- firstn_map, Hview.
    rewrite <- (length_map sampler_view (districts st)).
    rewrite firstn_app, firstn_all, Nat.sub_diag. simpl. apply app_nil_r.
Qed.

(** ** Income *)

(** C8.  When the answer to the income request has a status other than
    200, [fetchIncome] prints the failure with the status and the text of
    the answer and returns; the list of districts is the one it was given,
    so every income, set or unset, and every other field is as before. *)
Theorem fetchIncome_failure :
  forall w out districts response rest,
    script w = Answer response :: rest ->
    status_code response <> 200 ->
    fetchIncome w out districts
    = (districts,
       {| script := rest;
          sent := sent w ++ [{| url := income_url; params := income_params |}] |},
       out ++ [PrintFailed (status_code response) (text response)],
       Ok tt).
Proof.
  intros w out districts response rest Hscript Hstatus.
  unfold fetchIncome, requests_get. rewrite Hscript. simpl.
  apply Z.eqb_neq in Hstatus. rewrite Hstatus. reflexivity.
Qed.

Lemma income_entry_row :
  forall r,
    row_ok r ->
    income_entry (py_row r) = Ok (PStr (county r ++ tract r)%string, row_income r).
Proof.
  intros r Hr. unfold income_entry, py_row, row_income. simpl.
  destruct (String.eqb (estimate r) no_data) eqn:He; simpl.
  - reflexivity.
  - destruct Hr as [Hr | Hr].
    + rewrite Hr, String.eqb_refl in He. discriminate.
    + destruct (int_of_str (estimate r)); [reflexivity | contradiction].
Qed.

Lemma dict_set_str_keys :
  forall k v d, str_keys d -> str_keys (dict_set (PStr k) v d).
Proof.
  intros k v d Hd. induction Hd as [| [k' x] d (k0 & Hk) Hd IH]; simpl.
  - constructor; [now exists k | constructor].
  - simpl in Hk. subst k'. simpl.
    destruct (String.eqb k k0); constructor; simpl; eauto.
Qed.

Lemma dict_find_set :
  forall t k v d,
    str_keys d ->
    dict_find (PStr t) (dict_set (PStr k) v d)
    = if String.eqb t k then Some v else dict_find (PStr t) d.
Proof.
  intros t k v d Hd. induction Hd as [| [k' x] d (k0 & Hk) _ IH]; simpl.
  - reflexivity.
  - simpl in Hk. subst k'. simpl.
    destruct (String.eqb k k0) eqn:Hkk; simpl.
    + apply String.eqb_eq in Hkk. subst k0.
      destruct (String.eqb t k); reflexivity.
    + rewrite IH.
      destruct (String.eqb t k0) eqn:Htk0; [| reflexivity].
      apply String.eqb_eq in Htk0. subst k0.
      rewrite String.eqb_sym, Hkk. reflexivity.
Qed.

Lemma dict_find_not_str :
  forall q d,
    str_keys d -> (forall t, q <> PStr t) -> dict_find q d = None.
Proof.
  intros q d Hd Hq. induction Hd as [| [k' x] d (k0 & Hk) _ IH]; simpl.
  - reflexivity.
  - simpl in Hk. subst k'. rewrite IH.
    destruct q; try reflexivity. now contradiction (Hq s).
Qed.

Lemma income_entry_shows :
  forall item r,
    shows item r ->
    estimate_ok r ->
    income_entry item
    = Ok (PStr (county r ++ tract r)%string, reported_income r).
Proof.
  intros item r (He & Hc & Ht) Hr.
  unfold income_entry, reported_income. rewrite Hc. simpl. rewrite Ht. simpl.
  rewrite He. simpl. unfold no_data.
  destruct (String.eqb (estimate r) "-666666666") eqn:Hs; simpl.
  - reflexivity.
  - destruct Hr as [Hr | Hr].
    + rewrite Hr, String.eqb_refl in Hs. discriminate.
    + destruct (int_of_str (estimate r)); [reflexivity | contradiction].
Qed.

(** The dict the comprehension builds holds, for every tract id, what the
    mapping of the specification holds. *)
Lemma income_dict_table :
  forall items rows,
    Forall2 shows items rows ->
    Forall estimate_ok rows ->
    forall d0,
      str_keys d0 ->
      exists income_data,
        income_dict items d0 = Ok income_data /\
        str_keys income_data /\
        forall t,
          dict_find (PStr t) income_data
          = match table_income rows t with
            | Some income => Some income
            | None => dict_find (PStr t) d0
            end.
Proof.
  intros items rows Hshows.
  induction Hshows as [| item r items rows Hitem _ IH]; intros Hrows d0 Hd0;
    simpl.
  - exists d0. split; [reflexivity | split; [exact Hd0 | reflexivity]].
  - inversion Hrows as [| ? ? Hr Hrest]; subst.
    rewrite (income_entry_shows item r Hitem Hr). simpl.
    destruct (IH Hrest
                (dict_set (PStr (county r ++ tract r)%string)
                   (reported_income r) d0)
                (dict_set_str_keys _ _ _ Hd0))
      as (income_data & Heq & Hkeys & Hfind).
    exists income_data. split; [exact Heq | split; [exact Hkeys |]].
    intros t. rewrite Hfind.
    destruct (table_income rows t); [reflexivity |].
    rewrite (dict_find_set _ _ _ _ Hd0).
    destruct (String.eqb t (county r ++ tract r)%string); reflexivity.
Qed.

Lemma table_income_none :
  forall rows t,
    (forall r, In r rows -> t <> (county r ++ tract r)%string) ->
    table_income rows t = None.
Proof.
  induction rows as [| r rows IH]; intros t Hnone; simpl.
  - reflexivity.
  - rewrite IH by (intros r' Hin; apply Hnone; now right).
    destruct (String.eqb_spec t (county r ++ tract r)%string) as [Heq | _];
      [| reflexivity].
    now contradiction (Hnone r (or_introl eq_refl)).
Qed.

Lemma table_income_last :
  forall before r after,
    (forall r', In r' after ->
                (county r' ++ tract r')%string <> (county r ++ tract r)%string) ->
    table_income (before ++ r :: after) (county r ++ tract r)%string
    = Some (reported_income r).
Proof.
  induction before as [| b before IH]; intros r after Hlast; simpl.
  - rewrite table_income_none.
    + now rewrite String.eqb_refl.
    + intros r' Hin Heq. now apply (Hlast r' Hin).
  - now rewrite IH.
Qed.

Lemma reported_income_cases :
  forall r,
    (estimate r = "-666666666" -> reported_income r = 0) /\
    (forall z,
       estimate r <> "-666666666" ->
       int_of_str (estimate r) = Some z ->
       reported_income r = z).
Proof.
  intros r. unfold reported_income. split.
  - intros ->. reflexivity.
  - intros z Hne Hz. apply String.eqb_neq in Hne. now rewrite Hne, Hz.
Qed.

(** The loop of line 269 on districts whose tracts a dict can hash: it
    ends without an exception, and every district comes out with the
    income the dict has for its tract, or 0, in [medIncome] and with every
    other field as it was. *)
Lemma assign_income_fields :
  forall income_data ds out,
    Forall (fun d => hashable (censusTract d) = true) ds ->
    exists ds' out',
      for_districts (assign_income income_data) out ds = (ds', out', Ok tt) /\
      Forall2
        (fun d d' =>
           same_but_income d d' /\
           medIncome d' = PInt (income_of income_data d))
        ds ds'.
Proof.
  intros income_data ds.
  induction ds as [| d ds IH]; intros out Hall; simpl.
  - exists [], out. split; [reflexivity | constructor].
  - inversion Hall as [| ? ? Hd Hrest]; subst.
    unfold assign_income at 1. rewrite Hd.
    destruct (dict_find (censusTract d) income_data) as [income |] eqn:Hf.
    + destruct (IH (out ++ [PrintUpdated (id d) (PInt income)]) Hrest)
        as (ds' & out' & -> & Hds).
      exists (set_medIncome d (PInt income) :: ds'), out'.
      split; [reflexivity |]. constructor; [| exact Hds].
      split; [unfold same_but_income; simpl; repeat split |].
      unfold income_of. rewrite Hf. reflexivity.
    + destruct (IH (out ++ [PrintNoData (id d)]) Hrest)
        as (ds' & out' & -> & Hds).
      exists (set_medIncome d (PInt 0) :: ds'), out'.
      split; [reflexivity |]. constructor; [| exact Hds].
      split; [unfold same_but_income; simpl; repeat split |].
      unfold income_of. rewrite Hf. reflexivity.
Qed.

Lemma income_of_table :
  forall rows income_data d,
    str_keys income_data ->
    (forall t, dict_find (PStr t) income_data = table_income rows t) ->
    income_of income_data d = tract_income rows (censusTract d).
Proof.
  intros rows income_data d Hkeys Hfind. unfold income_of, tract_income.
  destruct (censusTract d) as [| b | z | f | t | l | items];
    try (rewrite dict_find_not_str;
         [reflexivity | exact Hkeys | intros; discriminate]).
  now rewrite Hfind.
Qed.

Lemma fetchIncome_fields :
  forall w out ds response rest header items rows,
    script w = Answer response :: rest ->
    status_code response = 200 ->
    json response = Ok (PList (header :: items)) ->
    Forall2 shows items rows ->
    Forall estimate_ok rows ->
    Forall (fun d => hashable (censusTract d) = true) ds ->
    exists ds' out',
      fetchIncome w out ds
      = (ds',
         {| script := rest;
            sent := sent w ++ [{| url := income_url; params := income_params |}] |},
         out', Ok tt) /\
      Forall2
        (fun d d' =>
           same_but_income d d' /\
           medIncome d' = PInt (tract_income rows (censusTract d)))
        ds ds'.
Proof.
  intros w out ds response rest header items rows Hscript Hstatus Hjson
    Hshows Hrows Htracts.
  unfold fetchIncome, requests_get. rewrite Hscript. simpl.
  rewrite Hstatus. simpl. unfold read_income. rewrite Hjson. simpl.
  destruct (income_dict_table items rows Hshows Hrows [] (Forall_nil _))
    as (income_data & -> & Hkeys & Hfind).
  assert (Hfind' : forall t,
             dict_find (PStr t) income_data = table_income rows t).
  { intros t. rewrite Hfind. now destruct (table_income rows t). }
  destruct (assign_income_fields income_data ds (out ++ [PrintIncomeData])
              Htracts) as (ds' & out' & -> & Hall).
  exists ds', out'. split; [reflexivity |].
  eapply Forall2_impl; [| exact Hall].
  intros d d' [Hsame Hmed].
  rewrite (income_of_table rows income_data d Hkeys Hfind') in Hmed.
  split; assumption.
Qed.

(** C4.  On an answer with status 200 whose body is a header followed by
    items whose entries 0, 2 and 3 are strings (the estimate, the county
    and the tract; the estimate the sentinel -666666666 or readable by
    [int]), [fetchIncome] returns without an exception and every district
    comes out with [medIncome] set and nothing else changed.  The income is
    the one the tract-to-income mapping of the response holds for the tract
    of the district: 0 when no row has that tract (or the tract is unset),
    and else what the last row with that tract reports, which is 0 for the
    sentinel -666666666 and the number the estimate reads as otherwise. *)
Theorem fetchIncome_success :
  forall w out districts response rest header items rows,
    script w = Answer response :: rest ->
    status_code response = 200 ->
    json response = Ok (PList (header :: items)) ->
    Forall2 shows items rows ->
    Forall estimate_ok rows ->
    Forall (fun d => hashable (censusTract d) = true) districts ->
    exists districts' out',
      fetchIncome w out districts
      = (districts',
         {| script := rest;
            sent := sent w ++ [{| url := income_url; params := income_params |}] |},
         out', Ok tt) /\
      Forall2
        (fun d d' =>
           same_but_income d d' /\
           medIncome d' = PInt (tract_income rows (censusTract d)) /\
           ((forall r, In r rows ->
                       censusTract d <> PStr (county r ++ tract r)%string) ->
            medIncome d' = PInt 0) /\
           (forall before r after,
              rows = before ++ r :: after ->
              censusTract d = PStr (county r ++ tract r)%string ->
              (forall r', In r' after ->
                          (county r' ++ tract r')%string
                          <> (county r ++ tract r)%string) ->
              (estimate r = "-666666666" -> medIncome d' = PInt 0) /\
              (forall z,
                 estimate r <> "-666666666" ->
                 int_of_str (estimate r) = Some z ->
                 medIncome d' = PInt z)))
        districts districts'.
Proof.
  intros w out districts response rest header items rows Hscript Hstatus Hjson
    Hshows Hrows Htracts.
  destruct (fetchIncome_fields w out districts response rest header items rows
              Hscript Hstatus Hjson Hshows Hrows Htracts)
    as (districts' & out' & Hcall & Hall).
  exists districts', out'. split; [exact Hcall |].
  eapply Forall2_impl; [| exact Hall].
  intros d d' [Hsame Hmed].
  split; [exact Hsame | split; [exact Hmed | split]].
  - intros Hnone. rewrite Hmed. unfold tract_income.
    destruct (censusTract d) as [| | | | t | |]; try reflexivity.
    rewrite table_income_none; [reflexivity |].
    intros r Hin Heq. apply (Hnone r Hin). now rewrite Heq.
  - intros before r after -> Htract Hlast.
    rewrite Hmed. unfold tract_income. rewrite Htract.
    rewrite (table_income_last before r after Hlast).
    destruct (reported_income_cases r) as [Hzero Hread]. split.
    + intros He. now rewrite (Hzero He).
    + intros z Hne Hz. now rewrite (Hread z Hne Hz).
Qed.

(** ** Tract lookup *)

(** For a district with a point the body of the loop makes one request,
    keyed by the latitude and longitude of the point, whatever the answer;
    on a status other than 200 it goes on to the next district. *)
Lemma fetch_tract_one_request :
  forall w d response rest,
    is_None (randomLat d) = false ->
    is_None (randomLong d) = false ->
    script w = Answer response :: rest ->
    fst (fetch_tract w d)
    = {| script := rest;
         sent := sent w ++ [{| url := census_url;
                               params := [("lat", randomLat d);
                                          ("lon", randomLong d);
                                          ("censusYear", PStr "2010");
                                          ("format", PStr "json")] |}] |}
    /\ (status_code response <> 200 -> snd (fetch_tract w d) = Ok d).
Proof.
  intros w d response rest Hlat Hlong Hscript.
  unfold fetch_tract, requests_get. rewrite Hlat, Hlong, Hscript. simpl.
  split; [reflexivity |].
  intros Hstatus. unfold read_tract.
  apply Z.eqb_neq in Hstatus. now rewrite Hstatus.
Qed.


(** ** Further properties: the constructor and the loader *)

(** X1.  The constructor raises in exactly one case: no colour is given (or one
    that is false as a condition, such as the empty string) and the grade
    is a value no dict can hash.  Otherwise the record gets the colour
    given, whatever the grade is, or else the colour [color_map] has for
    the grade. *)
Theorem init_raises_iff :
  forall coords grade ident descr color lat long income tract,
    raised (DetroitDistrict_init coords grade ident descr color
              lat long income tract)
    = (negb (truthy color) && negb (hashable grade))%bool
    /\
    (forall d,
       DetroitDistrict_init coords grade ident descr color lat long income tract
       = Ok d ->
       if truthy color then holcColor d = color
       else dict_get color_map grade "grey" = Ok (holcColor d)).
Proof.
  intros coords grade ident descr color lat long income tract.
  unfold DetroitDistrict_init. split.
  - destruct (truthy color); [reflexivity |].
    destruct grade; try reflexivity.
    unfold dict_get.
    match goal with
    | |- context [assoc ?k color_map] => destruct (assoc k color_map)
    end; reflexivity.
  - intros d Hd. destruct (truthy color).
    + simpl in Hd. now injection Hd as <-.
    + destruct (dict_get color_map grade "grey") as [c | e]; [| discriminate].
      simpl in Hd. now injection Hd as <-.
Qed.

Lemma make_district_fresh :
  forall feature d, make_district feature = Ok d -> fresh d.
Proof.
  intros feature d Hd. unfold make_district in Hd.
  repeat (bind_step; [| discriminate]).
  unfold DetroitDistrict_init in Hd. simpl truthy in Hd. cbv iota in Hd.
  bind_step; [| discriminate].
  injection Hd as <-. unfold fresh. simpl. repeat split. assumption.
Qed.

(** X2.  A load that returns has read a JSON document with a features list and
    has appended one record per feature, in the order of the file; every
    record holds the ring, grade, identifier and description of its feature
    and starts without point, income or tract, coloured by its grade. *)
Theorem createDistricts_success :
  forall fs fileName districts loaded,
    createDistricts fs fileName districts = (loaded, Ok tt) ->
    exists data features made,
      fs fileName = Some (Doc data) /\
      features_of data = Ok features /\
      loaded = districts ++ made /\
      Forall2 (fun f d => built_from f d /\ fresh d) features made.
Proof.
  intros fs fileName districts loaded Hload. unfold createDistricts in Hload.
  destruct (fs fileName) as [[| data] |] eqn:Hfile; try discriminate.
  destruct (features_of data) as [features | e] eqn:Hfeatures; [| discriminate].
  destruct (append_districts_inv features districts)
    as (good & made & rest & Hf & Hall & Hfst & Hres).
  rewrite Hload in Hfst, Hres. simpl in Hfst, Hres.
  destruct rest as [| bad rest].
  - rewrite app_nil_r in Hf. subst good.
    exists data, features, made. repeat split; try assumption.
    clear Hload Hres Hfst Hfeatures.
    induction Hall as [| f d fs' ds' Hd _ IH]; constructor.
    + split; [now apply make_district_built | now apply (make_district_fresh f)].
    + exact IH.
  - destruct Hres as (e & _ & Habs). discriminate.
Qed.

(** X3.  Of the coordinates of a feature only the first ring of the first
    polygon reaches the district: further rings and polygons are dropped. *)
Theorem make_district_first_ring :
  forall feature geometry ring rings polygons d,
    getkey feature "geometry" = Ok geometry ->
    getkey geometry "coordinates"
    = Ok (PList (PList (ring :: rings) :: polygons)) ->
    make_district feature = Ok d ->
    coordinates d = ring.
Proof.
  intros feature geometry ring rings polygons d Hg Hc Hd.
  apply make_district_built in Hd.
  destruct Hd as (properties & geometry' & rings' & ring' & area
                  & _ & Hg' & Hc' & Hr & Hr0 & _).
  rewrite Hg in Hg'. injection Hg' as <-.
  rewrite Hc in Hc'. injection Hc' as <-.
  simpl in Hr. injection Hr as <-.
  simpl in Hr0. now injection Hr0 as <-.
Qed.


(** ** Further properties: the tract lookup *)

Lemma substring_skip :
  forall a b n,
    String.substring (String.length a) n (a ++ b)%string = String.substring 0 n b.
Proof.
  induction a as [| c a IH]; intros b n; simpl.
  - reflexivity.
  - apply IH.
Qed.

Lemma substring_prefix :
  forall a b, String.substring 0 (String.length a) (a ++ b)%string = a.
Proof.
  induction a as [| c a IH]; intros b; simpl.
  - now destruct b.
  - now rewrite IH.
Qed.

Lemma string_length_append :
  forall a b,
    String.length (a ++ b)%string = (String.length a + String.length b)%nat.
Proof.
  induction a as [| c a IH]; intros b; simpl; [reflexivity | now rewrite IH].
Qed.

Lemma string_append_assoc :
  forall a b c, ((a ++ b) ++ c)%string = (a ++ (b ++ c))%string.
Proof.
  induction a as [| x a IH]; intros b c; simpl; [reflexivity | now rewrite IH].
Qed.

Lemma substring_length_le :
  forall s n m, (String.length (String.substring n m s) <= m)%nat.
Proof.
  induction s as [| c s IH]; intros n m.
  - destruct n, m; simpl; lia.
  - destruct n as [| n].
    + destruct m as [| m]; simpl; [lia |]. specialize (IH 0%nat m). lia.
    + simpl. apply IH.
Qed.

(** The tract a block code yields: the nine characters after the two of
    the state, which are the county code followed by the tract code. *)
Lemma tract_of_block_fips :
  forall st cty tr blk,
    String.length st = 2%nat ->
    (String.length cty + String.length tr = 9)%nat ->
    String.substring 2 9 (st ++ cty ++ tr ++ blk)%string = (cty ++ tr)%string.
Proof.
  intros st cty tr blk Hst Hlen.
  assert (Hskip : forall n m, String.length st = n ->
                    String.substring n m (st ++ cty ++ tr ++ blk)%string
                    = String.substring 0 m (cty ++ tr ++ blk)%string).
  { intros n m <-. apply substring_skip. }
  rewrite (Hskip _ _ Hst), <- string_append_assoc.
  assert (Hpre : forall m, String.length (cty ++ tr)%string = m ->
                   String.substring 0 m ((cty ++ tr) ++ blk)%string
                   = (cty ++ tr)%string).
  { intros m <-. apply substring_prefix. }
  apply Hpre. now rewrite string_length_append.
Qed.

Lemma fetch_tract_found :
  forall w d response rest data first more fips,
    has_point d = true ->
    script w = Answer response :: rest ->
    status_code response = 200 ->
    json response = Ok data ->
    getkey data "results" = Ok (PList (first :: more)) ->
    getkey first "block_fips" = Ok (PStr fips) ->
    fetch_tract w d
    = ({| script := rest; sent := sent w ++ [census_request d] |},
       Ok (set_censusTract d (PStr (String.substring 2 9 fips)))).
Proof.
  intros w d response rest data first more fips Hp Hs Hst Hj Hr Hf.
  unfold fetch_tract, requests_get. unfold has_point in Hp.
  rewrite Hp, Hs. simpl. unfold read_tract. rewrite Hst, Hj. simpl.
  assert (Hin : contains_str "results" data = Ok true).
  { destruct data; simpl in Hr; try discriminate. simpl.
    destruct (assoc "results" items); [reflexivity | discriminate]. }
  rewrite Hin, Hr. simpl. rewrite Hf. reflexivity.
Qed.

Lemma substring_all :
  forall s m, (String.length s <= m)%nat -> String.substring 0 m s = s.
Proof.
  induction s as [| c s IH]; intros m Hlen.
  - now destruct m.
  - destruct m as [| m]; simpl in *; [lia |]. rewrite IH by lia. reflexivity.
Qed.

Lemma substring_rest :
  forall s n m,
    (String.length s <= n + m)%nat ->
    String.substring n m s = string_drop n s.
Proof.
  induction s as [| c s IH]; intros n m Hlen.
  - destruct n, m; reflexivity.
  - destruct n as [| n].
    + simpl string_drop. apply substring_all. exact Hlen.
    + simpl. apply IH. simpl in Hlen. lia.
Qed.

(** X4.  On an answer with status 200 whose first result has a string
    [block_fips], the one request is made and the district comes out with
    [censusTract] equal to [block_fips[2:11]] and every other field as it
    was.  That slice has at most nine characters; for a code of at most
    eleven characters it is all that follows the first two (nothing for a
    code of two characters or fewer), and for a code made of a
    two-character state, a county and a tract of nine characters together
    and a block it is the county followed by the tract. *)
Theorem fetch_tract_sets_tract :
  forall w d response rest data first more fips,
    has_point d = true ->
    script w = Answer response :: rest ->
    status_code response = 200 ->
    json response = Ok data ->
    getkey data "results" = Ok (PList (first :: more)) ->
    getkey first "block_fips" = Ok (PStr fips) ->
    exists d',
      fetch_tract w d
      = ({| script := rest; sent := sent w ++ [census_request d] |}, Ok d') /\
      censusTract d' = PStr (String.substring 2 9 fips) /\
      same_but_tract d d' /\
      (String.length (String.substring 2 9 fips) <= 9)%nat /\
      ((String.length fips <= 11)%nat ->
       censusTract d' = PStr (string_drop 2 fips)) /\
      ((String.length fips <= 2)%nat -> censusTract d' = PStr "") /\
      (forall st cty tr blk,
         fips = (st ++ cty ++ tr ++ blk)%string ->
         String.length st = 2%nat ->
         (String.length cty + String.length tr = 9)%nat ->
         censusTract d' = PStr (cty ++ tr)%string).
Proof.
  intros w d response rest data first more fips Hp Hs Hst Hj Hr Hf.
  exists (set_censusTract d (PStr (String.substring 2 9 fips))).
  split; [eapply fetch_tract_found; eassumption |].
  split; [reflexivity |].
  split; [unfold same_but_tract; simpl; repeat split |].
  split; [apply substring_length_le |].
  split; [| split].
  - intros Hlen. simpl censusTract. now rewrite substring_rest by lia.
  - intros Hlen. simpl censusTract. rewrite substring_rest by lia.
    destruct fips as [| a [| b [| c fips]]]; simpl in *; try reflexivity. lia.
  - intros st cty tr blk -> Hlen Hct. simpl censusTract.
    now rewrite tract_of_block_fips.
Qed.

(** X5.  An answer with status 200 that has no results (no such key, or an empty
    list) leaves the district as it is and raises nothing: the lookup is
    given up without a trace. *)
Theorem fetch_tract_no_results :
  forall w d response rest data,
    has_point d = true ->
    script w = Answer response :: rest ->
    status_code response = 200 ->
    json response = Ok data ->
    lacks_key data "results" = true \/ getkey data "results" = Ok (PList []) ->
    fetch_tract w d
    = ({| script := rest; sent := sent w ++ [census_request d] |}, Ok d).
Proof.
  intros w d response rest data Hp Hs Hst Hj Hno.
  unfold fetch_tract, requests_get. unfold has_point in Hp.
  rewrite Hp, Hs. simpl. unfold read_tract. rewrite Hst, Hj. simpl.
  destruct Hno as [Hl | He].
  - destruct data; simpl in Hl; try discriminate. simpl.
    destruct (assoc "results" items); [discriminate | reflexivity].
  - assert (Hin : contains_str "results" data = Ok true).
    { destruct data; simpl in He; try discriminate. simpl.
      destruct (assoc "results" items); [reflexivity | discriminate]. }
    rewrite Hin, He. reflexivity.
Qed.

Lemma read_tract_frame :
  forall response d d',
    read_tract response d = Ok d' -> same_but_tract d d'.
Proof.
  intros response d d' Hr.
  assert (Hrefl : same_but_tract d d) by (unfold same_but_tract; repeat split).
  unfold read_tract in Hr.
  destruct (Z.eqb (status_code response) 200); [| now injection Hr as <-].
  do 2 (bind_step; [| discriminate]).
  match type of Hr with
  | (if ?b then _ else _) = _ => destruct b; [| now injection Hr as <-]
  end.
  do 2 (bind_step; [| discriminate]).
  match type of Hr with
  | (if ?b then _ else _) = _ => destruct b; [| now injection Hr as <-]
  end.
  repeat (bind_step; [| discriminate]).
  injection Hr as <-. unfold same_but_tract. simpl. repeat split.
Qed.

(** X6.  [fetchCensus] assigns nothing but [censusTract]: whatever the service
    answers, and also when the call ends with an exception, the list keeps
    its length and order, every district keeps all its other fields, and a
    district without a point is not touched at all. *)
Theorem fetchCensus_frame :
  forall w districts,
    Forall2
      (fun d d' => same_but_tract d d' /\ (has_point d = false -> d' = d))
      districts
      (fst (fst (fetchCensus w districts))).
Proof.
  intros w districts. unfold fetchCensus.
  apply for_districts_Forall2.
  - intros d. split; [unfold same_but_tract; repeat split | reflexivity].
  - intros s d s' d' Hf. unfold fetch_tract in Hf. fold (has_point d) in Hf.
    destruct (has_point d).
    + destruct (requests_get s census_url (census_params d)) as [w1 [response | e]];
        [| discriminate].
      injection Hf as _ Hr. split; [| discriminate].
      eapply read_tract_frame; eassumption.
    + injection Hf as _ <-.
      split; [unfold same_but_tract; repeat split | reflexivity].
Qed.

Lemma fetch_tract_world :
  forall w d,
    fst (fetch_tract w d)
    = if has_point d
      then {| script := tl (script w); sent := sent w ++ [census_request d] |}
      else w.
Proof.
  intros w d. unfold fetch_tract. fold (has_point d).
  destruct (has_point d); [| reflexivity].
  unfold requests_get. destruct (script w) as [| [| response] rest]; reflexivity.
Qed.

Lemma fetch_tract_point :
  forall w d w' d',
    fetch_tract w d = (w', Ok d') -> has_point d' = has_point d.
Proof.
  intros w d w' d' Hf. apply fetch_tract_view in Hf.
  unfold sampler_view, sampled in Hf. injection Hf as _ Hlat Hlong.
  unfold has_point. now rewrite Hlat, Hlong.
Qed.

(** X7.  A call of [fetchCensus] that returns has made one request for every
    district with a point and none for the others, in the order of the
    list, each keyed by the latitude and longitude of its district, and
    has used up as many answers. *)
Theorem fetchCensus_requests :
  forall districts w districts' w',
    fetchCensus w districts = (districts', w', Ok tt) ->
    sent w' = sent w ++ map census_request (filter has_point districts) /\
    script w'
    = skipn (List.length (filter has_point districts)) (script w).
Proof.
  unfold fetchCensus. intros ds.
  induction ds as [| d ds IH]; intros w districts' w' Hf; simpl in Hf.
  - injection Hf as _ <-. simpl. now rewrite app_nil_r.
  - pose proof (fetch_tract_world w d) as Hw.
    destruct (fetch_tract w d) as [w1 [d1 | e]]; [| discriminate].
    simpl in Hw.
    destruct (for_districts fetch_tract w1 ds) as [[ds2 w2] r] eqn:Hrest.
    injection Hf as _ <- ->.
    destruct (IH w1 ds2 w2 Hrest) as [Hsent Hscript].
    rewrite Hsent, Hscript, Hw. simpl.
    destruct (has_point d); simpl.
    + rewrite <- app_assoc. split; [reflexivity |].
      destruct (script w); simpl; [apply skipn_nil | reflexivity].
    + split; reflexivity.
Qed.


(** ** Further properties: the income lookup *)

Lemma assign_income_total :
  forall income_data ds out,
    Forall (fun d => hashable (censusTract d) = true) ds ->
    exists out',
      for_districts (assign_income income_data) out ds
      = (map (fun d => set_medIncome d (PInt (income_of income_data d))) ds,
         out', Ok tt).
Proof.
  intros income_data ds.
  induction ds as [| d ds IH]; intros out Hall; simpl.
  - exists out. reflexivity.
  - inversion Hall as [| ? ? Hd Hrest]; subst.
    unfold assign_income at 1, income_of at 1. rewrite Hd.
    destruct (dict_find (censusTract d) income_data) as [income |].
    + destruct (IH (out ++ [PrintUpdated (id d) (PInt income)]) Hrest)
        as (out' & ->).
      exists out'. reflexivity.
    + destruct (IH (out ++ [PrintNoData (id d)]) Hrest) as (out' & ->).
      exists out'. reflexivity.
Qed.

Lemma assign_income_frame :
  forall income_data out d out' d',
    assign_income income_data out d = (out', Ok d') -> same_but_income d d'.
Proof.
  intros income_data out d out' d' Ha. unfold assign_income in Ha.
  destruct (hashable (censusTract d)); [| discriminate].
  destruct (dict_find (censusTract d) income_data);
    injection Ha as _ <-; unfold same_but_income; simpl; repeat split.
Qed.

(** X8.  [fetchIncome] assigns nothing but [medIncome]: whatever the service
    answers, and also when the call ends with an exception, the list keeps
    its length and order and every district keeps all its other fields. *)
Theorem fetchIncome_frame :
  forall w out ds,
    Forall2 same_but_income ds (fst (fst (fst (fetchIncome w out ds)))).
Proof.
  intros w out ds.
  assert (Hrefl : Forall2 same_but_income ds ds).
  { induction ds; constructor; [unfold same_but_income; repeat split | assumption]. }
  unfold fetchIncome.
  destruct (requests_get w income_url income_params) as [w1 [response | e]];
    [| exact Hrefl].
  destruct (Z.eqb (status_code response) 200); [| exact Hrefl].
  destruct (read_income response) as [income_data | e]; [| exact Hrefl].
  pose proof (for_districts_Forall2 _ (assign_income income_data)
                same_but_income
                (fun d => ltac:(unfold same_but_income; repeat split))
                (assign_income_frame income_data)
                ds (out ++ [PrintIncomeData])) as Hall.
  destruct (for_districts (assign_income income_data)
              (out ++ [PrintIncomeData]) ds) as [[ds' out'] r].
  exact Hall.
Qed.

(** X9.  When every tract is a value a dict can hash (a string or [None]),
    [fetchIncome] changes the incomes all together or not at all.  If it
    raises (no answer, a body that is not JSON, a malformed row), the
    districts are as before.  If it returns, either the status was not 200
    and the districts are as before, or every district comes out with, in
    [medIncome], the integer the one dict built from the answer has for
    its tract (0 when it has none), and with every other field as it was. *)
Theorem fetchIncome_all_or_nothing :
  forall w out ds ds' w' out' r,
    Forall (fun d => hashable (censusTract d) = true) ds ->
    fetchIncome w out ds = (ds', w', out', r) ->
    (raised r = true -> ds' = ds) /\
    (r = Ok tt ->
     exists response rest,
       script w = Answer response :: rest /\
       ((status_code response <> 200 /\ ds' = ds) \/
        (status_code response = 200 /\
         exists income_data,
           read_income response = Ok income_data /\
           Forall2
             (fun d d' =>
                same_but_income d d' /\
                medIncome d' = PInt (income_of income_data d) /\
                exists z, medIncome d' = PInt z)
             ds ds'))).
Proof.
  intros w out ds ds' w' out' r Hall Hf. unfold fetchIncome, requests_get in Hf.
  destruct (script w) as [| [| response] rest] eqn:Hs.
  - injection Hf as <- _ _ <-. split; [reflexivity | discriminate].
  - injection Hf as <- _ _ <-. split; [reflexivity | discriminate].
  - destruct (Z.eqb (status_code response) 200) eqn:Hst.
    + apply Z.eqb_eq in Hst.
      destruct (read_income response) as [income_data | e] eqn:Hr.
      * destruct (assign_income_fields income_data ds (out ++ [PrintIncomeData])
                    Hall) as (ds1 & out1 & Hloop & Hfields).
        rewrite Hloop in Hf. injection Hf as <- _ _ <-.
        split; [discriminate |]. intros _.
        exists response, rest. split; [reflexivity |]. right.
        split; [exact Hst |]. exists income_data. split; [exact Hr |].
        eapply Forall2_impl; [| exact Hfields].
        intros d d' [Hsame Hmed].
        split; [exact Hsame | split; [exact Hmed | eexists; exact Hmed]].
      * injection Hf as <- _ _ <-. split; [reflexivity | discriminate].
    + apply Z.eqb_neq in Hst. injection Hf as <- _ _ <-.
      split; [discriminate |]. intros _.
      exists response, rest. split; [reflexivity |]. left.
      split; [exact Hst | reflexivity].
Qed.

Lemma income_dict_rows_app :
  forall good d0,
    Forall row_ok good ->
    exists d1,
      forall items,
        income_dict (map py_row good ++ items) d0 = income_dict items d1.
Proof.
  induction good as [| r good IH]; intros d0 Hgood; simpl.
  - exists d0. reflexivity.
  - inversion Hgood as [| ? ? Hr Hrest]; subst.
    destruct (IH (dict_set (PStr (county r ++ tract r)%string) (row_income r) d0)
                Hrest) as (d1 & Hd1).
    exists d1. intros items.
    rewrite (income_entry_row r Hr). simpl. apply Hd1.
Qed.

(** X10.  The mapping is built before any district is touched, and one bad row
    spoils it: when the first row that is not well formed makes the
    comprehension raise, [fetchIncome] raises the same exception with the
    districts as they were.  A row whose estimate [int] cannot read raises
    [ValueError], a row with fewer than four entries [IndexError]. *)
Theorem fetchIncome_bad_row :
  (forall w out ds response rest header good bad more e,
     script w = Answer response :: rest ->
     status_code response = 200 ->
     json response = Ok (PList (header :: map py_row good ++ bad :: more)) ->
     Forall row_ok good ->
     income_entry bad = Raise e ->
     fetchIncome w out ds
     = (ds,
        {| script := rest;
           sent := sent w ++ [{| url := income_url; params := income_params |}] |},
        out, Raise e))
  /\
  (forall r,
     estimate r <> no_data ->
     int_of_str (estimate r) = None ->
     income_entry (py_row r) = Raise ValueError)
  /\
  (forall l,
     (List.length l < 4)%nat -> income_entry (PList l) = Raise IndexError).
Proof.
  split; [| split].
  - intros w out ds response rest header good bad more e Hs Hst Hj Hgood Hbad.
    unfold fetchIncome, requests_get. rewrite Hs. simpl.
    rewrite Hst. simpl. unfold read_income. rewrite Hj. simpl.
    destruct (income_dict_rows_app good [] Hgood) as (d1 & Hd1).
    rewrite Hd1. simpl. rewrite Hbad. reflexivity.
  - intros r Hne Hnone. unfold income_entry, py_row. simpl.
    apply String.eqb_neq in Hne. rewrite Hne. simpl. now rewrite Hnone.
  - intros l Hlen.
    destruct l as [| a [| b [| c [| d l]]]]; simpl in Hlen; try lia;
      reflexivity.
Qed.

Lemma fetchIncome_districts :
  forall w out ds response rest,
    script w = Answer response :: rest ->
    Forall (fun d => hashable (censusTract d) = true) ds ->
    fst (fst (fst (fetchIncome w out ds)))
    = if Z.eqb (status_code response) 200
      then match read_income response with
           | Ok income_data =>
               map (fun d => set_medIncome d (PInt (income_of income_data d))) ds
           | Raise _ => ds
           end
      else ds.
Proof.
  intros w out ds response rest Hs Hall.
  unfold fetchIncome, requests_get. rewrite Hs. simpl.
  destruct (Z.eqb (status_code response) 200); [| reflexivity].
  destruct (read_income response) as [income_data | e]; [| reflexivity].
  destruct (assign_income_total income_data ds (out ++ [PrintIncomeData]) Hall)
    as (out1 & ->).
  reflexivity.
Qed.

(** X11.  Asking again changes nothing: when the service gives the same answer a
    second time, a second [fetchIncome] leaves the districts exactly as
    the first left them, since an income depends on the tract alone. *)
Theorem fetchIncome_idempotent :
  forall w1 w2 out1 out2 ds response rest1 rest2,
    script w1 = Answer response :: rest1 ->
    script w2 = Answer response :: rest2 ->
    Forall (fun d => hashable (censusTract d) = true) ds ->
    fst (fst (fst (fetchIncome w2 out2
                     (fst (fst (fst (fetchIncome w1 out1 ds)))))))
    = fst (fst (fst (fetchIncome w1 out1 ds))).
Proof.
  intros w1 w2 out1 out2 ds response rest1 rest2 Hs1 Hs2 Hall.
  rewrite (fetchIncome_districts w1 out1 ds response rest1 Hs1 Hall).
  destruct (Z.eqb (status_code response) 200) eqn:Hst.
  - destruct (read_income response) as [income_data | e] eqn:Hr.
    + rewrite (fetchIncome_districts w2 out2 _ response rest2 Hs2).
      * rewrite Hst, Hr, map_map. apply map_ext. intros d. reflexivity.
      * rewrite Forall_map. exact Hall.
    + rewrite (fetchIncome_districts w2 out2 ds response rest2 Hs2 Hall).
      now rewrite Hst, Hr.
  - rewrite (fetchIncome_districts w2 out2 ds response rest2 Hs2 Hall).
    now rewrite Hst.
Qed.


(** ** Further properties: the two lookups together *)

(** X12.  The tract [fetchCensus] stores is the key [fetchIncome] looks
    up.  A district whose point falls in a block with code state, county,
    tract, block comes out of [fetchCensus] with county followed by tract
    in [censusTract] and nothing else changed, and then out of
    [fetchIncome] with, in [medIncome], what the last row of the income
    table with that county and tract reports (0 for the sentinel
    -666666666, else the number its estimate reads as) and nothing else
    changed. *)
Theorem tract_lookup_feeds_income :
  forall w out d census income rest data first more st blk header items
         before r after,
    has_point d = true ->
    script w = Answer census :: Answer income :: rest ->
    status_code census = 200 ->
    json census = Ok data ->
    getkey data "results" = Ok (PList (first :: more)) ->
    getkey first "block_fips"
    = Ok (PStr (st ++ county r ++ tract r ++ blk)%string) ->
    String.length st = 2%nat ->
    (String.length (county r) + String.length (tract r) = 9)%nat ->
    status_code income = 200 ->
    json income = Ok (PList (header :: items)) ->
    Forall2 shows items (before ++ r :: after) ->
    Forall estimate_ok (before ++ r :: after) ->
    (forall r', In r' after ->
                (county r' ++ tract r')%string <> (county r ++ tract r)%string) ->
    exists w1 d1 d2,
      fetchCensus w [d] = ([d1], w1, Ok tt) /\
      censusTract d1 = PStr (county r ++ tract r)%string /\
      same_but_tract d d1 /\
      fst (fst (fst (fetchIncome w1 out [d1]))) = [d2] /\
      same_but_income d1 d2 /\
      (estimate r = "-666666666" -> medIncome d2 = PInt 0) /\
      (forall z,
         estimate r <> "-666666666" ->
         int_of_str (estimate r) = Some z ->
         medIncome d2 = PInt z).
Proof.
  intros w out d census income rest data first more st blk header items
    before r after Hp Hs Hcs Hcj Hres Hfips Hst Hlen His Hij Hshows Hrows Hlast.
  assert (Hcensus :
            fetchCensus w [d]
            = ([set_censusTract d (PStr (county r ++ tract r)%string)],
               {| script := Answer income :: rest;
                  sent := sent w ++ [census_request d] |}, Ok tt)).
  { unfold fetchCensus. simpl.
    rewrite (fetch_tract_found w d census (Answer income :: rest) data first more
               _ Hp Hs Hcs Hcj Hres Hfips).
    now rewrite (tract_of_block_fips st (county r) (tract r) blk Hst Hlen). }
  destruct (fetchIncome_fields
              {| script := Answer income :: rest;
                 sent := sent w ++ [census_request d] |}
              out [set_censusTract d (PStr (county r ++ tract r)%string)]
              income rest header items (before ++ r :: after)
              eq_refl His Hij Hshows Hrows)
    as (ds2 & out2 & Hcall & Hfields).
  { constructor; [reflexivity | constructor]. }
  inversion Hfields as [| d1 d2 l1 l2 [Hsame Hmed] Hnil]; subst.
  inversion Hnil; subst.
  simpl censusTract in Hmed. unfold tract_income in Hmed.
  rewrite (table_income_last before r after Hlast) in Hmed.
  destruct (reported_income_cases r) as [Hzero Hread].
  exists {| script := Answer income :: rest; sent := sent w ++ [census_request d] |}.
  exists (set_censusTract d (PStr (county r ++ tract r)%string)), d2.
  split; [exact Hcensus |].
  split; [reflexivity |].
  split; [unfold same_but_tract; simpl; repeat split |].
  split; [now rewrite Hcall |].
  split; [exact Hsame |].
  split.
  - intros He. now rewrite Hmed, (Hzero He).
  - intros z Hne Hz. now rewrite Hmed, (Hread z Hne Hz).
Qed.

(** ** Further properties: the sampler and the program *)

Lemma for_districts_app :
  forall (S : Type) (body : S -> DetroitDistrict -> S * result DetroitDistrict)
         (a b a' : list DetroitDistrict) (s s' : S),
    for_districts body s a = (a', s', Ok tt) ->
    for_districts body s (a ++ b)
    = let '(b', s'', r) := for_districts body s' b in (a' ++ b', s'', r).
Proof.
  intros S body a b. induction a as [| d a IH]; intros a' s s' Ha; simpl in Ha.
  - injection Ha as <- <-. simpl.
    destruct (for_districts body s b) as [[b' s''] r]. reflexivity.
  - simpl. destruct (body s d) as [s1 [d1 | e]]; [| discriminate].
    destruct (for_districts body s1 a) as [[a1 s2] r1] eqn:Hrest.
    injection Ha as <- <- ->.
    rewrite (IH a1 s1 s2 Hrest).
    destruct (for_districts body s2 b) as [[b' s''] r]. reflexivity.
Qed.

(** X13.  The sampler is not atomic either.  A list of coordinates matplotlib
    cannot make a path of (the empty list is one that passes the test of
    line 183) stops the call with the exception of [Path]: the districts
    before it keep the points just drawn, the district itself and those
    after it are as they were, and the generator has moved on. *)
Theorem generateRandPoint_stops_at_bad_path :
  forall g out before bad after before' s' e,
    generateRandPoint g out before = (before', s', Ok tt) ->
    coordinates_ok (coordinates bad) = true ->
    Path (coordinates bad) = Raise e ->
    generateRandPoint g out (before ++ bad :: after)
    = (before' ++ bad :: after, s', Raise e)
    /\ coordinates_ok (PList []) = true.
Proof.
  intros g out before bad after before' s' e Hb Hok Hp. split; [| reflexivity].
  unfold generateRandPoint in *.
  rewrite (for_districts_app _ sample before (bad :: after) before' (g, out) s' Hb).
  simpl. unfold sample at 1. now rewrite Hok, Hp.
Qed.

Lemma Forall2_map_eq :
  forall (A B : Type) (f : A -> B) (l l' : list A),
    Forall2 (fun x x' => f x' = f x) l l' -> map f l' = map f l.
Proof.
  intros A B f l l' Hall. induction Hall as [| x x' l l' Hx _ IH]; simpl.
  - reflexivity.
  - now rewrite Hx, IH.
Qed.

Lemma for_districts_loaded :
  forall (S : Type) (body : S -> DetroitDistrict -> S * result DetroitDistrict),
    (forall s d s' d', body s d = (s', Ok d') -> loaded_fields d' = loaded_fields d) ->
    forall ds s,
      map loaded_fields (fst (fst (for_districts body s ds))) = map loaded_fields ds.
Proof.
  intros S body Hbody ds s. apply Forall2_map_eq.
  apply for_districts_Forall2; [reflexivity | exact Hbody].
Qed.

Lemma sample_loaded :
  forall s d s' d', sample s d = (s', Ok d') -> loaded_fields d' = loaded_fields d.
Proof.
  intros s d s' d' Hs.
  destruct (sample_cases _ _ _ _ Hs)
    as [(_ & _ & ->) | [(p & _ & _ & _ & _ & ->) | (p & pt & _ & _ & _ & _ & ->)]];
    reflexivity.
Qed.

Lemma fetch_tract_loaded :
  forall w d w' d',
    fetch_tract w d = (w', Ok d') -> loaded_fields d' = loaded_fields d.
Proof.
  intros w d w' d' Hf. unfold fetch_tract in Hf. fold (has_point d) in Hf.
  destruct (has_point d); [| now injection Hf as _ <-].
  destruct (requests_get w census_url (census_params d)) as [w1 [response | e]];
    [| discriminate].
  injection Hf as _ Hr. apply read_tract_frame in Hr.
  destruct Hr as (Hc & Hg & Hcol & Hi & Hd & _).
  unfold loaded_fields. now rewrite Hc, Hg, Hcol, Hi, Hd.
Qed.

Lemma assign_income_loaded :
  forall income_data out d out' d',
    assign_income income_data out d = (out', Ok d') ->
    loaded_fields d' = loaded_fields d.
Proof.
  intros income_data out d out' d' Ha. apply assign_income_frame in Ha.
  destruct Ha as (Hc & Hg & Hcol & Hi & Hd & _).
  unfold loaded_fields. now rewrite Hc, Hg, Hcol, Hi, Hd.
Qed.

Lemma call_keeps_loaded :
  forall m st,
    is_createDistricts m = false ->
    map loaded_fields (districts (fst (call m st)))
    = map loaded_fields (districts st).
Proof.
  intros m st Hm. destruct m; try discriminate; simpl; try reflexivity.
  - unfold plotDistricts. destruct (draw _); reflexivity.
  - pose proof (for_districts_loaded _ sample sample_loaded (districts st)
                  (random st, stdout st)) as Hl.
    unfold generateRandPoint.
    destruct (for_districts sample (random st, stdout st) (districts st))
      as [[ds [g out]] r]. exact Hl.
  - pose proof (for_districts_loaded _ fetch_tract fetch_tract_loaded
                  (districts st) (network st)) as Hl.
    unfold fetchCensus.
    destruct (for_districts fetch_tract (network st) (districts st))
      as [[ds w] r]. exact Hl.
  - unfold fetchIncome.
    destruct (requests_get (network st) income_url income_params)
      as [w [response | e]]; [| reflexivity].
    destruct (Z.eqb (status_code response) 200); [| reflexivity].
    destruct (read_income response) as [income_data | e]; [| reflexivity].
    pose proof (for_districts_loaded _ (assign_income income_data)
                  (assign_income_loaded income_data) (districts st)
                  (stdout st ++ [PrintIncomeData])) as Hl.
    destruct (for_districts (assign_income income_data)
                (stdout st ++ [PrintIncomeData]) (districts st))
      as [[ds out] r]. exact Hl.
Qed.

Lemma call_grows_loaded :
  forall m st,
    exists added,
      map loaded_fields (districts (fst (call m st)))
      = map loaded_fields (districts st) ++ added.
Proof.
  intros m st. destruct (is_createDistricts m) eqn:Hm.
  - destruct m; try discriminate. simpl.
    destruct (createDistricts_adds (files st) fileName (districts st))
      as (made & Hfst & _).
    destruct (createDistricts (files st) fileName (districts st)) as [ds r].
    simpl in *. exists (map loaded_fields made). now rewrite Hfst, map_app.
  - exists []. rewrite app_nil_r. now apply call_keeps_loaded.
Qed.

Lemma run_without_load :
  forall ms st,
    forallb (fun m => negb (is_createDistricts m)) ms = true ->
    map loaded_fields (districts (fst (run ms st)))
    = map loaded_fields (districts st).
Proof.
  induction ms as [| m ms IH]; intros st Hall; simpl.
  - reflexivity.
  - simpl in Hall. apply andb_true_iff in Hall. destruct Hall as [Hm Hms].
    pose proof (call_keeps_loaded m st) as Hkeep.
    destruct (call m st) as [st1 [u | e]]; simpl in *.
    + rewrite (IH st1 Hms). apply Hkeep. now destruct (is_createDistricts m).
    + apply Hkeep. now destruct (is_createDistricts m).
Qed.

(** X14.  What was loaded stays: along any sequence of calls, ending well or
    with an exception, the coordinates, grades, colours, identifiers and
    descriptions of the districts present are never rewritten, no district
    is dropped or moved, and districts are only ever added at the end; a
    sequence without [createDistricts] adds none. *)
Theorem run_keeps_loaded :
  forall ms st,
    (exists added,
       map loaded_fields (districts (fst (run ms st)))
       = map loaded_fields (districts st) ++ added) /\
    (forallb (fun m => negb (is_createDistricts m)) ms = true ->
     map loaded_fields (districts (fst (run ms st)))
     = map loaded_fields (districts st)).
Proof.
  intros ms st. split; [| apply run_without_load].
  revert st. induction ms as [| m ms IH]; intros st; simpl.
  - exists []. now rewrite app_nil_r.
  - destruct (call_grows_loaded m st) as (added1 & Hm).
    destruct (call m st) as [st1 [u | e]]; simpl in *.
    + destruct (IH st1) as (added2 & Hrest).
      exists (added1 ++ added2). now rewrite Hrest, Hm, app_assoc.
    + now exists added1.
Qed.


Lemma append_districts_returns :
  forall features ds loaded,
    append_districts features ds = (loaded, Ok tt) ->
    exists made,
      loaded = ds ++ made /\
      Forall2 (fun f d => built_from f d /\ fresh d) features made.
Proof.
  intros features ds loaded Hload.
  destruct (append_districts_inv features ds)
    as (good & made & rest & Hf & Hall & Hfst & Hres).
  rewrite Hload in Hfst, Hres. simpl in Hfst, Hres.
  destruct rest as [| bad rest].
  - rewrite app_nil_r in Hf. subst good.
    exists made. split; [exact Hfst |].
    clear Hload Hres Hfst.
    induction Hall as [| f d fs' ds' Hd _ IH]; constructor.
    + split; [now apply make_district_built | now apply (make_district_fresh f)].
    + exact IH.
  - destruct Hres as (e & _ & Habs). discriminate.
Qed.

Lemma run_first :
  forall m ms st st',
    run (m :: ms) st = (st', Ok tt) ->
    exists st1, call m st = (st1, Ok tt) /\ run ms st1 = (st', Ok tt).
Proof.
  intros m ms st st' Hr. simpl in Hr.
  destruct (call m st) as [st1 [[] | e]]; [| discriminate].
  exists st1. split; [reflexivity | exact Hr].
Qed.

Lemma built_from_loaded :
  forall f d d',
    loaded_fields d' = loaded_fields d -> built_from f d -> built_from f d'.
Proof.
  intros f d d' Hl Hb. unfold loaded_fields in Hl.
  injection Hl as Hc Hg Hi Hd _.
  unfold built_from in *. now rewrite Hc, Hg, Hi, Hd.
Qed.

(** X15.  When [main] runs to its end, the catalog holds exactly one district
    per feature of the data file, in the order of the file; each still has
    the ring, grade, identifier and description of its feature and the
    colour of its grade, after sampling and both lookups, and each has no
    point or a grid point inside its polygon. *)
Theorem main_end_to_end :
  forall w fs st',
    main w fs = (st', Ok tt) ->
    exists data features,
      fs data_file = Some (Doc data) /\
      features_of data = Ok features /\
      Forall2
        (fun f d =>
           built_from f d /\
           dict_get color_map (holcGrade d) "grey" = Ok (holcColor d))
        features (districts st') /\
      Forall point_inside (districts st').
Proof.
  intros w fs st' Hmain. unfold main, main_calls in Hmain.
  apply run_first in Hmain. destruct Hmain as (st1 & Hcall & Hrest).
  simpl in Hcall. unfold createDistricts in Hcall.
  destruct (fs data_file) as [[| data] |] eqn:Hfile; try discriminate.
  destruct (features_of data) as [features | e] eqn:Hfeatures; [| discriminate].
  destruct (append_districts features []) as [ds r] eqn:Happ.
  injection Hcall as <- ->.
  destruct (append_districts_returns features [] ds Happ) as (made & -> & Hall).
  simpl app in *.
  exists data, features.
  split; [reflexivity | split; [exact Hfeatures | split]].
  - assert (Hl : map loaded_fields (districts st') = map loaded_fields made).
    { replace st' with (fst (run [Call_plotDistricts; Call_generateRandPoint;
                                  Call_fetchCensus; Call_fetchIncome;
                                  Call_calcRank; Call_calcPopu;
                                  Call_cacheData cache_file;
                                  Call_loadCache cache_file]
                               {| districts := made; random := seed 17;
                                  network := w; stdout := []; files := fs |}))
        by (now rewrite Hrest).
      now apply run_without_load. }
    clear Hrest Happ Hfeatures Hfile. revert Hl. generalize (districts st') as ds.
    induction Hall as [| f d features made [Hb Hf] _ IH]; intros [| d' ds] Hl;
      simpl in Hl; try discriminate; constructor.
    + remember (loaded_fields d') as v' eqn:Hv'.
      remember (loaded_fields d) as v eqn:Hv.
      injection Hl as Hd _. subst v v'.
      split; [eapply built_from_loaded; eassumption |].
      destruct Hf as (_ & _ & _ & _ & Hcol).
      unfold loaded_fields in Hd. injection Hd as _ Hg _ _ Hc.
      now rewrite Hg, Hc.
    + apply IH. remember (loaded_fields d') as v' eqn:Hv'.
      remember (loaded_fields d) as v eqn:Hv.
      now injection Hl as _ Hl.
  - replace st' with (fst (run [Call_plotDistricts; Call_generateRandPoint;
                                Call_fetchCensus; Call_fetchIncome;
                                Call_calcRank; Call_calcPopu;
                                Call_cacheData cache_file;
                                Call_loadCache cache_file]
                             {| districts := made; random := seed 17;
                                network := w; stdout := []; files := fs |}))
      by (now rewrite Hrest).
    apply run_keeps_inside. simpl.
    clear Hrest Happ Hfeatures Hfile.
    induction Hall as [| f d features made [_ Hf] _ IH];
      constructor; [| exact IH].
    left. destruct Hf as (Hlat & Hlong & _). split; assumption.
Qed.

(** X16.  When the load fails, for whatever reason, [main] ends there with the
    exception of the load: nothing is drawn or sampled, no request is
    sent and nothing is printed; the catalog holds the records made before
    the failure. *)
Theorem main_load_failure :
  forall w fs e,
    snd (createDistricts fs data_file []) = Raise e ->
    main w fs
    = ({| districts := fst (createDistricts fs data_file []);
          random := seed 17; network := w; stdout := []; files := fs |},
       Raise e).
Proof.
  intros w fs e Hload. unfold main, main_calls.
  cbn [run call start districts files random network stdout].
  destruct (createDistricts fs data_file []) as [ds r].
  simpl in Hload. subst r. reflexivity.
Qed.


(** X17.  A feature that has the keys the loader reads, and a grade a dict can
    hash, always loads: the record holds exactly those values, no point,
    income or tract, and the colour of the grade. *)
Theorem make_district_well_formed :
  forall feature properties geometry rings ring coords grade ident area descr,
    getkey feature "properties" = Ok properties ->
    getkey feature "geometry" = Ok geometry ->
    getkey geometry "coordinates" = Ok rings ->
    getitem rings 0 = Ok ring ->
    getitem ring 0 = Ok coords ->
    getkey properties "holc_grade" = Ok grade ->
    getkey properties "holc_id" = Ok ident ->
    getkey properties "area_description_data" = Ok area ->
    getkey area "8" = Ok descr ->
    hashable grade = true ->
    exists color,
      dict_get color_map grade "grey" = Ok (PStr color) /\
      make_district feature
      = Ok {| coordinates := coords; holcGrade := grade; id := ident;
              description := descr; randomLat := PNone; randomLong := PNone;
              medIncome := PNone; censusTract := PNone;
              holcColor := PStr color |}.
Proof.
  intros feature properties geometry rings ring coords grade ident area descr
    Hp Hg Hc Hr Hr0 Hgr Hid Ha Hd Hh.
  assert (Hcolor : exists color, dict_get color_map grade "grey" = Ok (PStr color)).
  { unfold dict_get.
    destruct grade; simpl in Hh; try discriminate; try (eexists; reflexivity).
    destruct (assoc s color_map); eexists; reflexivity. }
  destruct Hcolor as (color & Hcolor). exists color. split; [exact Hcolor |].
  unfold make_district. rewrite Hp. simpl. rewrite Hg. simpl.
  rewrite Hc. simpl. rewrite Hr. simpl. rewrite Hr0. simpl.
  rewrite Hgr. simpl. rewrite Hid. simpl. rewrite Ha. simpl. rewrite Hd. simpl.
  unfold DetroitDistrict_init. simpl truthy. cbv iota.
  rewrite Hcolor. reflexivity.
Qed.

(** X18.  [fetchCensus] stops at the first district whose answer has status 200
    and a body that is not JSON: the exception of [response.json()] ends
    the call, the districts before keep the tracts just stored, the
    district itself and those after it are untouched and get no request. *)
Theorem fetchCensus_stops_at_failure :
  forall w before bad after before' w1 response rest e,
    fetchCensus w before = (before', w1, Ok tt) ->
    has_point bad = true ->
    script w1 = Answer response :: rest ->
    status_code response = 200 ->
    json response = Raise e ->
    fetchCensus w (before ++ bad :: after)
    = (before' ++ bad :: after,
       {| script := rest; sent := sent w1 ++ [census_request bad] |},
       Raise e).
Proof.
  intros w before bad after before' w1 response rest e Hb Hp Hs Hst Hj.
  unfold fetchCensus in *.
  rewrite (for_districts_app _ fetch_tract before (bad :: after) before' w w1 Hb).
  simpl. unfold fetch_tract at 1, requests_get. unfold has_point in Hp.
  rewrite Hp, Hs. simpl. unfold read_tract. rewrite Hst, Hj. reflexivity.
Qed.


End Properties.

(** * The properties on the small instance *)

Section Examples.
#[local] Existing Instance lab_prim.
#[local] Existing Instance lab_extern.

(** C1.  The lookup of a tract is not retried: for one district with a
    point and a service that answers 503 and would answer 200 next,
    [fetchCensus] sends the one request, keyed by the latitude and the
    longitude of the point, leaves the second answer unasked for and the
    tract of the district unset, and returns. *)
Theorem fetchCensus_sends_one_request :
  fetchCensus busy_then_found [sampledA]
  = ([sampledA],
     {| script := [Answer area_found];
        sent := [{| url := "https://geo.fcc.gov/api/census/area";
                    params := [("lat", PFloat 1); ("lon", PFloat 2);
                               ("censusYear", PStr "2010");
                               ("format", PStr "json")] |}] |},
     Ok tt)
  /\ censusTract sampledA = PNone
  /\ fst (fst (fetchCensus (answers area_found) [sampledA])) = [tractedA].
Proof. repeat split. Qed.

Lemma init_color_of_grade_witness :
  hashable (PStr "C") = true /\
  DetroitDistrict_init (square 0 0 1 1) (PStr "C") (PStr "C7") (PStr "small")
    PNone PNone PNone PNone PNone
  = Ok districtE.
Proof.
  split; [reflexivity |].
  exact (@init_color_of_grade lab_prim (square 0 0 1 1) (PStr "C") (PStr "C7")
           (PStr "small") PNone PNone PNone PNone eq_refl).
Defined.

Lemma createDistricts_propagates_witness :
  createDistricts lab_files "nowhere.json" [districtD]
  = ([districtD], Raise FileNotFoundError) /\
  createDistricts lab_files "notes.txt" [districtD]
  = ([districtD], Raise JSONDecodeError) /\
  exists e made,
    createDistricts lab_files "bad.json" [districtD]
    = ([districtD] ++ made, Raise e) /\
    Forall (fun d => exists f, In f [featureA; featureX; featureD] /\ built_from f d)
      made.
Proof.
  split; [| split].
  - exact (proj1 (@createDistricts_propagates lab_prim lab_files "nowhere.json"
                    [districtD]) eq_refl).
  - exact (proj1 (proj2 (@createDistricts_propagates lab_prim lab_files "notes.txt"
                           [districtD])) eq_refl).
  - exact (proj2 (proj2 (@createDistricts_propagates lab_prim lab_files "bad.json"
                           [districtD]))
             (collection [featureA; featureX; featureD])
             [featureA; featureX; featureD] eq_refl eq_refl eq_refl).
Defined.

Lemma createDistricts_appends_witness :
  (createDistricts lab_files "bad.json" [districtD]
   = ([districtD] ++ [districtA], Raise KeyError) /\
   List.length [districtA] = List.length [featureA]) /\
  exists made,
    [districtA; districtD] = [] ++ made /\
    createDistricts lab_files "good.json" [districtA; districtD]
    = ([] ++ made ++ made, Ok tt).
Proof.
  split.
  - apply (proj1 (@createDistricts_appends lab_prim lab_files "bad.json"
                    [districtD] (collection [featureA; featureX; featureD])
                    eq_refl)
             [featureA] featureX [featureD] [districtA] KeyError).
    + reflexivity.
    + constructor; [reflexivity | constructor].
    + reflexivity.
  - apply (proj2 (@createDistricts_appends lab_prim lab_files "good.json"
                    [] (collection [featureA; featureD]) eq_refl)
             [districtA; districtD]).
    reflexivity.
Defined.

Lemma generateRandPoint_frame_witness :
  Forall2
    (fun d d' =>
       same_but_point d d' /\
       (coordinates_ok (coordinates d) = false -> d' = d))
    [districtA; districtN; districtD]
    [sampledA; districtN; sampledD].
Proof.
  exact (@generateRandPoint_frame lab_prim lab_extern (seed 17) []
           [districtA; districtN; districtD]).
Defined.

Lemma generateRandPoint_skips_empty_witness :
  Path (coordinates districtE) = Ok [(0, 0); (1, 0); (1, 1); (0, 1); (0, 0)] /\
  sample (seed 17, []) districtE = ((seed 17, []), Ok districtE) /\
  generateRandPoint (seed 17) [] ([districtA] ++ districtE :: [districtD])
  = ([sampledA] ++ districtE :: [sampledD],
     (19%nat, [PrintPoint sampledA (2, 1); PrintPoint sampledD (3, 3)]), Ok tt).
Proof.
  split; [reflexivity |].
  assert (Hout : forall p, In p points ->
                   contains_point [(0, 0); (1, 0); (1, 1); (0, 1); (0, 0)] p
                   = false).
  { intros p Hin. vm_compute in Hin.
    repeat (destruct Hin as [<- | Hin]; [reflexivity |]). contradiction. }
  destruct (@generateRandPoint_skips_empty lab_prim lab_extern (seed 17) []
              [districtA] districtE [districtD]
              [(0, 0); (1, 0); (1, 1); (0, 1); (0, 0)] eq_refl Hout)
    as (Hsample & Hcall & _).
  split; [exact Hsample | exact Hcall].
Defined.

Lemma generateRandPoint_deterministic_witness :
  map sampler_view [districtA; districtD]
  = map sampler_view [set_medIncome districtA (PInt 52000);
                      set_censusTract districtD (PStr "163500100")] /\
  map sampled (fst (fst (generateRandPoint (seed 17) [] [districtA; districtD])))
  = map sampled
      (fst (fst (generateRandPoint (seed 17) [PrintComment]
                   [set_medIncome districtA (PInt 52000);
                    set_censusTract districtD (PStr "163500100")]))) /\
  fst (snd (fst (generateRandPoint (seed 17) [] [districtA; districtD])))
  = fst (snd (fst (generateRandPoint (seed 17) [PrintComment]
                     [set_medIncome districtA (PInt 52000);
                      set_censusTract districtD (PStr "163500100")]))) /\
  snd (generateRandPoint (seed 17) [] [districtA; districtD])
  = snd (generateRandPoint (seed 17) [PrintComment]
           [set_medIncome districtA (PInt 52000);
            set_censusTract districtD (PStr "163500100")]).
Proof.
  split; [reflexivity |].
  apply (@generateRandPoint_deterministic lab_prim lab_extern (seed 17) []
           [PrintComment] [districtA; districtD]
           [set_medIncome districtA (PInt 52000);
            set_censusTract districtD (PStr "163500100")]).
  reflexivity.
Defined.


Lemma fetchIncome_failure_witness :
  status_code income_denied <> 200 /\
  fetchIncome (answers income_denied) [] [tractedA; tractedD]
  = ([tractedA; tractedD],
     {| script := [];
        sent := [{| url := income_url; params := income_params |}] |},
     [PrintFailed 403 "Forbidden"], Ok tt).
Proof.
  split; [discriminate |].
  apply (@fetchIncome_failure lab_prim (answers income_denied) []
           [tractedA; tractedD] income_denied []).
  - reflexivity.
  - discriminate.
Defined.

Lemma fetchIncome_success_witness :
  Forall2 shows (map py_row [row_a; row_d; row_other]) [row_a; row_d; row_other] /\
  Forall estimate_ok [row_a; row_d; row_other] /\
  (exists districts' out',
     fetchIncome (answers income_found) [] [tractedA; tractedD; sampledA]
     = (districts',
        {| script := [];
           sent := [] ++ [{| url := income_url; params := income_params |}] |},
        out', Ok tt) /\
     Forall2
       (fun d d' =>
          same_but_income d d' /\
          medIncome d' = PInt (tract_income [row_a; row_d; row_other]
                                 (censusTract d)))
       [tractedA; tractedD; sampledA] districts') /\
  map medIncome
    (fst (fst (fst (fetchIncome (answers income_found) []
                      [tractedA; tractedD; sampledA]))))
  = [PInt 52000; PInt 0; PInt 0].
Proof.
  assert (Hshows : Forall2 shows (map py_row [row_a; row_d; row_other])
                     [row_a; row_d; row_other]).
  { repeat (constructor; [repeat split |]). constructor. }
  assert (Hrows : Forall estimate_ok [row_a; row_d; row_other]).
  { constructor; [right; vm_compute; discriminate |].
    constructor; [left; reflexivity |].
    constructor; [right; vm_compute; discriminate | constructor]. }
  assert (Htracts : Forall (fun d => hashable (censusTract d) = true)
                      [tractedA; tractedD; sampledA]).
  { repeat (constructor; [reflexivity |]). constructor. }
  split; [exact Hshows | split; [exact Hrows | split; [| reflexivity]]].
  destruct (@fetchIncome_success lab_prim (answers income_found) []
              [tractedA; tractedD; sampledA] income_found [] income_header
              (map py_row [row_a; row_d; row_other]) [row_a; row_d; row_other]
              eq_refl eq_refl eq_refl Hshows Hrows Htracts)
    as (districts' & out' & Hcall & Hall).
  exists districts', out'. split; [exact Hcall |].
  eapply Forall2_impl; [| exact Hall].
  intros d d' (Hsame & Hmed & _). split; assumption.
Defined.

Lemma sampled_point_inside_witness :
  ((sampledA = districtA /\ (18%nat, [PrintPoint sampledA (2, 1)]) = (seed 17, []) /\
    (coordinates_ok (coordinates districtA) = false \/
     exists polygon_path,
       Path (coordinates districtA) = Ok polygon_path /\
       filter (contains_point polygon_path) points = []))
   \/
   (exists polygon_path point,
      Path (coordinates districtA) = Ok polygon_path /\
      nth_error (filter (contains_point polygon_path) points)
        (fst (randbelow (seed 17)
                (List.length (filter (contains_point polygon_path) points))))
      = Some point /\
      sampledA = set_point districtA point /\
      In point points /\
      contains_point polygon_path point = true))
  /\
  (exists point,
     nth_error
       (filter (contains_point [(0, 0); (3, 0); (3, 3); (0, 3); (0, 0)]) points)
       (fst (randbelow (seed 17)
               (List.length
                  (filter (contains_point [(0, 0); (3, 0); (3, 3); (0, 3); (0, 0)])
                     points))))
     = Some point /\
     snd (sample (seed 17, []) districtA) = Ok (set_point districtA point))
  /\
  (exists i,
     nth_error
       (filter (contains_point [(0, 0); (3, 0); (3, 3); (0, 3); (0, 0)]) points) i
     = Some (2, 1) /\
     forall j,
       nth_error
         (filter (contains_point [(0, 0); (3, 0); (3, 3); (0, 3); (0, 0)]) points) j
       = Some (2, 1) ->
       j = i)
  /\
  Forall point_inside
    (districts
       (fst (run [Call_fetchCensus; Call_generateRandPoint; Call_fetchIncome]
               {| districts := [sampledA; districtE; districtD];
                  random := seed 17; network := busy_then_found; stdout := [];
                  files := lab_files |})))
  /\
  map sampler_view
    (firstn 2
       (districts
          (fst (call (Call_createDistricts "good.json")
                  {| districts := [sampledA; districtE];
                     random := seed 17; network := busy_then_found;
                     stdout := []; files := lab_files |}))))
  = map sampler_view [sampledA; districtE].
Proof.
  pose proof (@sampled_point_inside lab_prim lab_extern)
    as (Hsample & Hassign & Hone & Hrun & _ & Hframe).
  split; [| split; [| split; [| split]]].
  - apply (Hsample (seed 17, []) districtA
             (18%nat, [PrintPoint sampledA (2, 1)]) sampledA).
    reflexivity.
  - apply (Hassign (seed 17, []) districtA
             [(0, 0); (3, 0); (3, 3); (0, 3); (0, 0)]).
    + reflexivity.
    + reflexivity.
    + vm_compute. lia.
  - apply (Hone [(0, 0); (3, 0); (3, 3); (0, 3); (0, 0)] (2, 1)).
    + vm_compute.
      repeat (constructor; [simpl; intuition discriminate |]). constructor.
    + vm_compute. tauto.
    + reflexivity.
  - apply Hrun. simpl.
    constructor; [| constructor; [| constructor; [| constructor]]].
    + right. exists [(0, 0); (3, 0); (3, 3); (0, 3); (0, 0)], (2, 1).
      repeat split. vm_compute. tauto.
    + left. split; reflexivity.
    + left. split; reflexivity.
  - apply (Hframe (Call_createDistricts "good.json")
             {| districts := [sampledA; districtE];
                random := seed 17; network := busy_then_found;
                stdout := []; files := lab_files |}).
    discriminate.
Defined.


Lemma init_raises_iff_witness :
  DetroitDistrict_init (square 0 0 1 1) (PList []) (PStr "Z1") (PStr "odd grade")
    (PStr "red") PNone PNone PNone PNone
  = Ok {| coordinates := square 0 0 1 1; holcGrade := PList [];
          id := PStr "Z1"; description := PStr "odd grade";
          randomLat := PNone; randomLong := PNone; medIncome := PNone;
          censusTract := PNone; holcColor := PStr "red" |} /\
  PStr "red" = PStr "red" /\
  raised (DetroitDistrict_init (square 0 0 1 1) (PList []) (PStr "Z1")
            (PStr "odd grade") (PStr "") PNone PNone PNone PNone)
  = true.
Proof.
  split; [reflexivity | split].
  - apply (proj2 (@init_raises_iff lab_prim (square 0 0 1 1) (PList [])
                    (PStr "Z1") (PStr "odd grade") (PStr "red")
                    PNone PNone PNone PNone)
             {| coordinates := square 0 0 1 1; holcGrade := PList [];
                id := PStr "Z1"; description := PStr "odd grade";
                randomLat := PNone; randomLong := PNone; medIncome := PNone;
                censusTract := PNone; holcColor := PStr "red" |}).
    reflexivity.
  - apply (proj1 (@init_raises_iff lab_prim (square 0 0 1 1) (PList [])
                    (PStr "Z1") (PStr "odd grade") (PStr "")
                    PNone PNone PNone PNone)).
Defined.

Lemma createDistricts_success_witness :
  createDistricts lab_files "good.json" [districtE]
  = ([districtE; districtA; districtD], Ok tt) /\
  exists data features made,
    lab_files "good.json" = Some (Doc data) /\
    features_of data = Ok features /\
    [districtE; districtA; districtD] = [districtE] ++ made /\
    Forall2 (fun f d => built_from f d /\ fresh d) features made.
Proof.
  split; [reflexivity |].
  apply (@createDistricts_success lab_prim lab_files "good.json" [districtE]
           [districtE; districtA; districtD]).
  reflexivity.
Defined.

Lemma make_district_first_ring_witness :
  make_district featureM
  = Ok (mk (square 0 0 3 3) "B" "B5" "two parts" "cornflowerblue"
          PNone PNone PNone PNone) /\
  coordinates (mk (square 0 0 3 3) "B" "B5" "two parts" "cornflowerblue"
                 PNone PNone PNone PNone)
  = square 0 0 3 3.
Proof.
  split; [reflexivity |].
  apply (@make_district_first_ring lab_prim featureM
           (PDict [("type", PStr "MultiPolygon");
                   ("coordinates",
                    PList [PList [square 0 0 3 3; square 1 1 2 2];
                           PList [square 3 3 4 4]])])
           (square 0 0 3 3) [square 1 1 2 2] [PList [square 3 3 4 4]]);
    reflexivity.
Defined.

Lemma make_district_well_formed_witness :
  hashable (PStr "A") = true /\
  exists color,
    dict_get color_map (PStr "A") "grey" = Ok (PStr color) /\
    make_district featureA
    = Ok {| coordinates := square 0 0 3 3; holcGrade := PStr "A";
            id := PStr "A1"; description := PStr "well kept";
            randomLat := PNone; randomLong := PNone; medIncome := PNone;
            censusTract := PNone; holcColor := PStr color |}.
Proof.
  split; [reflexivity |].
  apply (@make_district_well_formed lab_prim featureA
           (PDict [("holc_id", PStr "A1"); ("holc_grade", PStr "A");
                   ("area_description_data", PDict [("8", PStr "well kept")])])
           (PDict [("type", PStr "MultiPolygon");
                   ("coordinates", PList [PList [square 0 0 3 3]])])
           (PList [PList [square 0 0 3 3]]) (PList [square 0 0 3 3])
           (square 0 0 3 3) (PStr "A") (PStr "A1")
           (PDict [("8", PStr "well kept")]) (PStr "well kept"));
    reflexivity.
Defined.

Lemma fetch_tract_sets_tract_witness :
  has_point sampledA = true /\
  (exists d',
     fetch_tract (answers area_found) sampledA
     = ({| script := []; sent := [] ++ [census_request sampledA] |}, Ok d') /\
     censusTract d' = PStr "163517200" /\
     same_but_tract sampledA d') /\
  (exists d',
     fetch_tract (answers area_short) sampledA
     = ({| script := []; sent := [] ++ [census_request sampledA] |}, Ok d') /\
     censusTract d' = PStr "163" /\
     same_but_tract sampledA d').
Proof.
  split; [reflexivity | split].
  - destruct (@fetch_tract_sets_tract lab_prim (answers area_found)
                sampledA area_found []
                (@PDict lab_prim
                   [("input", @PDict lab_prim [("lat", @PFloat lab_prim 1);
                                               ("lon", @PFloat lab_prim 2)]);
                    ("results",
                     PList [PDict [("block_fips", PStr "261635172001234");
                                   ("county_name", PStr "Wayne County")]])])
                (@PDict lab_prim [("block_fips", PStr "261635172001234");
                                  ("county_name", PStr "Wayne County")])
                [] "261635172001234"
                eq_refl eq_refl eq_refl eq_refl eq_refl eq_refl)
      as (d' & Hcall & Htract & Hsame & _).
    exists d'. split; [exact Hcall | split; [exact Htract | exact Hsame]].
  - destruct (@fetch_tract_sets_tract lab_prim (answers area_short)
                sampledA area_short []
                (PDict [("results", PList [PDict [("block_fips", PStr "26163")]])])
                (PDict [("block_fips", PStr "26163")])
                [] "26163" eq_refl eq_refl eq_refl eq_refl eq_refl eq_refl)
      as (d' & Hcall & Htract & Hsame & _).
    exists d'. split; [exact Hcall | split; [exact Htract | exact Hsame]].
Defined.

Lemma fetch_tract_no_results_witness :
  getkey (PDict [("input", PDict [("lat", PFloat 3); ("lon", PFloat 3)]);
                 ("results", PList [])]) "results" = Ok (PList []) /\
  fetch_tract (answers area_unknown) sampledD
  = ({| script := []; sent := [] ++ [census_request sampledD] |}, Ok sampledD).
Proof.
  split; [reflexivity |].
  eapply (@fetch_tract_no_results lab_prim (answers area_unknown)
            sampledD area_unknown [] _); try reflexivity.
  right. reflexivity.
Defined.

Lemma fetchCensus_frame_witness :
  Forall2
    (fun d d' => same_but_tract d d' /\ (has_point d = false -> d' = d))
    [sampledA; districtE; sampledD]
    [tractedA; districtE; sampledD].
Proof.
  exact (@fetchCensus_frame lab_prim lab_service
           [sampledA; districtE; sampledD]).
Defined.

Lemma fetchCensus_requests_witness :
  fetchCensus lab_service [sampledA; districtE; sampledD]
  = ([tractedA; districtE; sampledD],
     {| script := [Answer income_found];
        sent := [census_request sampledA; census_request sampledD] |}, Ok tt) /\
  [census_request sampledA; census_request sampledD]
  = [] ++ map census_request (filter has_point [sampledA; districtE; sampledD]) /\
  [Answer income_found]
  = skipn (List.length (filter has_point [sampledA; districtE; sampledD]))
      (script lab_service).
Proof.
  split; [reflexivity |].
  apply (@fetchCensus_requests lab_prim
           [sampledA; districtE; sampledD] lab_service
           [tractedA; districtE; sampledD]
           {| script := [Answer income_found];
              sent := [census_request sampledA; census_request sampledD] |}).
  reflexivity.
Defined.

Lemma fetchCensus_stops_at_failure_witness :
  fetchCensus {| script := [Answer area_found; Answer area_garbled]; sent := [] |}
    [sampledA]
  = ([tractedA],
     {| script := [Answer area_garbled]; sent := [census_request sampledA] |},
     Ok tt) /\
  fetchCensus {| script := [Answer area_found; Answer area_garbled]; sent := [] |}
    ([sampledA] ++ sampledD :: [sampledA])
  = ([tractedA] ++ sampledD :: [sampledA],
     {| script := [];
        sent := [census_request sampledA] ++ [census_request sampledD] |},
     Raise JSONDecodeError).
Proof.
  split; [reflexivity |].
  apply (@fetchCensus_stops_at_failure lab_prim
           {| script := [Answer area_found; Answer area_garbled]; sent := [] |}
           [sampledA] sampledD [sampledA] [tractedA]
           {| script := [Answer area_garbled]; sent := [census_request sampledA] |}
           area_garbled [] JSONDecodeError);
    reflexivity.
Defined.


Lemma fetchIncome_all_or_nothing_witness :
  Forall (fun d => hashable (censusTract d) = true) [tractedA; tractedD; sampledA] /\
  (exists response rest,
     script (answers income_found) = Answer response :: rest /\
     ((status_code response <> 200 /\
       fst (fst (fst (fetchIncome (answers income_found) []
                        [tractedA; tractedD; sampledA])))
       = [tractedA; tractedD; sampledA]) \/
      (status_code response = 200 /\
       exists income_data,
         read_income response = Ok income_data /\
         Forall2
           (fun d d' =>
              same_but_income d d' /\
              medIncome d' = PInt (income_of income_data d) /\
              exists z, medIncome d' = PInt z)
           [tractedA; tractedD; sampledA]
           (fst (fst (fst (fetchIncome (answers income_found) []
                             [tractedA; tractedD; sampledA]))))))) /\
  (raised (Raise (A := unit) ValueError) = true ->
   fst (fst (fst (fetchIncome (answers income_garbled) [] [tractedA; tractedD])))
   = [tractedA; tractedD]).
Proof.
  assert (Htracts : Forall (fun d => hashable (censusTract d) = true)
                      [tractedA; tractedD; sampledA]).
  { repeat (constructor; [reflexivity |]). constructor. }
  assert (Htracts2 : Forall (fun d => hashable (censusTract d) = true)
                       [tractedA; tractedD]).
  { repeat (constructor; [reflexivity |]). constructor. }
  split; [exact Htracts | split].
  - apply (proj2 (@fetchIncome_all_or_nothing lab_prim (answers income_found) []
                    [tractedA; tractedD; sampledA]
                    (fst (fst (fst (fetchIncome (answers income_found) []
                                      [tractedA; tractedD; sampledA]))))
                    (snd (fst (fst (fetchIncome (answers income_found) []
                                      [tractedA; tractedD; sampledA]))))
                    (snd (fst (fetchIncome (answers income_found) []
                                 [tractedA; tractedD; sampledA])))
                    (Ok tt) Htracts eq_refl)).
    reflexivity.
  - apply (proj1 (@fetchIncome_all_or_nothing lab_prim (answers income_garbled) []
                    [tractedA; tractedD]
                    (fst (fst (fst (fetchIncome (answers income_garbled) []
                                      [tractedA; tractedD]))))
                    (snd (fst (fst (fetchIncome (answers income_garbled) []
                                      [tractedA; tractedD]))))
                    (snd (fst (fetchIncome (answers income_garbled) []
                                 [tractedA; tractedD])))
                    (Raise ValueError) Htracts2 eq_refl)).
Defined.

Lemma fetchIncome_bad_row_witness :
  Forall row_ok [row_a] /\
  income_entry (py_row row_bad) = Raise ValueError /\
  fetchIncome (answers income_garbled) [] [tractedA; tractedD]
  = ([tractedA; tractedD],
     {| script := [];
        sent := [] ++ [{| url := income_url; params := income_params |}] |},
     [], Raise ValueError) /\
  income_entry (PList [PStr "52000"; PStr "26"; PStr "163"]) = Raise IndexError.
Proof.
  pose proof (@fetchIncome_bad_row lab_prim) as (Hstop & Hvalue & Hshort).
  assert (Hgood : Forall row_ok [row_a]).
  { constructor; [right; vm_compute; discriminate | constructor]. }
  assert (Hbad : income_entry (py_row row_bad) = Raise ValueError).
  { apply Hvalue; [discriminate | reflexivity]. }
  split; [exact Hgood | split; [exact Hbad | split]].
  - apply (Hstop (answers income_garbled) [] [tractedA; tractedD] income_garbled
             [] income_header [row_a] (py_row row_bad) [py_row row_d] ValueError);
      try reflexivity; assumption.
  - apply Hshort. simpl. lia.
Defined.

Lemma fetchIncome_idempotent_witness :
  Forall (fun d => hashable (censusTract d) = true) [tractedA; tractedD] /\
  fst (fst (fst (fetchIncome (answers income_found) [PrintComment]
                   (fst (fst (fst (fetchIncome (answers income_found) []
                                     [tractedA; tractedD])))))))
  = fst (fst (fst (fetchIncome (answers income_found) [] [tractedA; tractedD]))).
Proof.
  assert (Htracts : Forall (fun d => hashable (censusTract d) = true)
                      [tractedA; tractedD]).
  { repeat (constructor; [reflexivity |]). constructor. }
  split; [exact Htracts |].
  apply (@fetchIncome_idempotent lab_prim (answers income_found)
           (answers income_found) [] [PrintComment] [tractedA; tractedD]
           income_found [] [] eq_refl eq_refl Htracts).
Defined.

Lemma fetchIncome_frame_witness :
  Forall2 same_but_income
    [tractedA; tractedD]
    [set_medIncome tractedA (PInt 52000); set_medIncome tractedD (PInt 0)].
Proof.
  exact (@fetchIncome_frame lab_prim (answers income_found) []
           [tractedA; tractedD]).
Defined.

Lemma tract_lookup_feeds_income_witness :
  Forall2 shows (map py_row ([] ++ row_a :: [row_d; row_other]))
    ([] ++ row_a :: [row_d; row_other]) /\
  Forall estimate_ok ([] ++ row_a :: [row_d; row_other]) /\
  exists w1 d1 d2,
    fetchCensus {| script := [Answer area_found; Answer income_found]; sent := [] |}
      [sampledA]
    = ([d1], w1, Ok tt) /\
    censusTract d1 = PStr "163517200" /\
    same_but_tract sampledA d1 /\
    fst (fst (fst (fetchIncome w1 [] [d1]))) = [d2] /\
    same_but_income d1 d2 /\
    medIncome d2 = PInt 52000.
Proof.
  assert (Hshows : Forall2 shows (map py_row ([] ++ row_a :: [row_d; row_other]))
                     ([] ++ row_a :: [row_d; row_other])).
  { repeat (constructor; [repeat split |]). constructor. }
  assert (Hrows : Forall estimate_ok ([] ++ row_a :: [row_d; row_other])).
  { constructor; [right; vm_compute; discriminate |].
    constructor; [left; reflexivity |].
    constructor; [right; vm_compute; discriminate | constructor]. }
  split; [exact Hshows | split; [exact Hrows |]].
  destruct (@tract_lookup_feeds_income lab_prim
              {| script := [Answer area_found; Answer income_found]; sent := [] |}
              [] sampledA area_found income_found []
              (@PDict lab_prim
                 [("input", @PDict lab_prim [("lat", @PFloat lab_prim 1);
                                             ("lon", @PFloat lab_prim 2)]);
                  ("results",
                   PList [PDict [("block_fips", PStr "261635172001234");
                                 ("county_name", PStr "Wayne County")]])])
              (@PDict lab_prim [("block_fips", PStr "261635172001234");
                                ("county_name", PStr "Wayne County")])
              [] "26" "1234" income_header
              (map py_row ([] ++ row_a :: [row_d; row_other]))
              [] row_a [row_d; row_other])
    as (w1 & d1 & d2 & Hcensus & Htract & Hsame1 & Hincome & Hsame2 & _ & Hread);
    try reflexivity; try assumption.
  - intros r' [<- | [<- | []]]; discriminate.
  - exists w1, d1, d2.
    split; [exact Hcensus | split; [exact Htract | split; [exact Hsame1 |]]].
    split; [exact Hincome | split; [exact Hsame2 |]].
    apply Hread; [discriminate | reflexivity].
Defined.

Lemma generateRandPoint_stops_at_bad_path_witness :
  generateRandPoint (seed 17) [] [districtA]
  = ([sampledA], (18%nat, [PrintPoint sampledA (2, 1)]), Ok tt) /\
  generateRandPoint (seed 17) [] ([districtA] ++ districtO :: [districtD])
  = ([sampledA] ++ districtO :: [districtD],
     (18%nat, [PrintPoint sampledA (2, 1)]), Raise ValueError).
Proof.
  split; [reflexivity |].
  apply (proj1 (@generateRandPoint_stops_at_bad_path lab_prim lab_extern
                  (seed 17) [] [districtA] districtO [districtD] [sampledA]
                  (18%nat, [PrintPoint sampledA (2, 1)]) ValueError
                  eq_refl eq_refl eq_refl)).
Defined.

Lemma run_keeps_loaded_witness :
  forallb (fun m => negb (is_createDistricts m))
    [Call_generateRandPoint; Call_fetchCensus; Call_fetchIncome] = true /\
  map loaded_fields
    (districts
       (fst (run [Call_generateRandPoint; Call_fetchCensus; Call_fetchIncome]
               {| districts := [districtA; districtD]; random := seed 17;
                  network := lab_service; stdout := []; files := lab_files |})))
  = map loaded_fields [districtA; districtD].
Proof.
  split; [reflexivity |].
  apply (proj2 (@run_keeps_loaded lab_prim lab_extern
                  [Call_generateRandPoint; Call_fetchCensus; Call_fetchIncome]
                  {| districts := [districtA; districtD]; random := seed 17;
                     network := lab_service; stdout := [];
                     files := lab_files |})).
  reflexivity.
Defined.

Lemma main_end_to_end_witness :
  snd (main lab_service lab_disk) = Ok tt /\
  districts (fst (main lab_service lab_disk))
  = [set_medIncome tractedA (PInt 52000); set_medIncome sampledD (PInt 0)] /\
  exists data features,
    lab_disk data_file = Some (Doc data) /\
    features_of data = Ok features /\
    Forall2
      (fun f d =>
         built_from f d /\
         dict_get color_map (holcGrade d) "grey" = Ok (holcColor d))
      features (districts (fst (main lab_service lab_disk))) /\
    Forall point_inside (districts (fst (main lab_service lab_disk))).
Proof.
  split; [reflexivity | split; [reflexivity |]].
  apply (@main_end_to_end lab_prim lab_extern lab_service lab_disk
           (fst (main lab_service lab_disk))).
  reflexivity.
Defined.

Lemma main_load_failure_witness :
  snd (createDistricts lab_files data_file []) = Raise FileNotFoundError /\
  main lab_service lab_files
  = ({| districts := []; random := seed 17; network := lab_service;
        stdout := []; files := lab_files |}, Raise FileNotFoundError).
Proof.
  split; [reflexivity |].
  apply (@main_load_failure lab_prim lab_extern lab_service lab_files
           FileNotFoundError).
  reflexivity.
Defined.


End Examples.
